(** * Response-normalization decoder of github_mcp_example.py

    A shallow embedding of [extract_repos_from_response],
    [extract_file_content] and the decoding part of [get_readme_content],
    together with the Python library functions they call
    ([json.loads], [json.dumps], [base64.b64decode], [bytes.decode],
    [re.search] on one fixed pattern, [str.replace], [str.strip]).

    Python [str] values are lists of Unicode code points, [bytes] values are
    lists of integers below 256.  Exceptions are explicit: a computation
    returns [Ok v] or [Raise e], and [try ... except] is a combinator.  The
    module-level [console] is the only mutable object the functions touch; it
    is threaded through as a log of the messages printed so far. *)

From Stdlib Require Import List ZArith Lia Bool String Ascii.
From Stdlib Require Import DecimalString DecimalZ.
From Stdlib Require Import Permutation Sorted.
Import ListNotations.
Open Scope Z_scope.

(** ** Python strings *)

Definition str := list Z.

Definition chr (a : ascii) : Z := Z.of_N (N_of_ascii a).

(** A literal of the source, as code points. *)
Definition lit (s : string) : str := map chr (list_ascii_of_string s).

Definition QUOTE : Z := 34.      (* the double quote character *)
Definition BACKSLASH : Z := 92.
Definition NEWLINE : Z := 10.

Fixpoint str_eqb (a b : str) : bool :=
  match a, b with
  | [], [] => true
  | x :: a', y :: b' => (x =? y) && str_eqb a' b'
  | _, _ => false
  end.

(** [s.startswith(p)] *)
Fixpoint startswith (p s : str) : bool :=
  match p, s with
  | [], _ => true
  | x :: p', y :: s' => (x =? y) && startswith p' s'
  | _ :: _, [] => false
  end.

(** [sub in s] for strings *)
Fixpoint str_contains (sub s : str) : bool :=
  startswith sub s ||
  match s with
  | [] => false
  | _ :: s' => str_contains sub s'
  end.

(** [s.replace(old, new)] for a non-empty [old]: occurrences are replaced
    from left to right and the replaced text is not scanned again.  [skip]
    counts the characters of a matched occurrence still to be dropped. *)
Fixpoint replace_from (old new : str) (skip : nat) (s : str) : str :=
  match s with
  | [] => []
  | c :: r =>
      match skip with
      | S k => replace_from old new k r
      | O =>
          if startswith old s
          then new ++ replace_from old new (pred (List.length old)) r
          else c :: replace_from old new O r
      end
  end.

Definition replace (old new s : str) : str := replace_from old new O s.

(** [Py_UNICODE_ISSPACE]: what [str.strip()] removes and what [\s] matches
    in a [str] pattern. *)
Definition isspace (c : Z) : bool :=
  ((9 <=? c) && (c <=? 13)) || ((28 <=? c) && (c <=? 32)) ||
  (c =? 133) || (c =? 160) || (c =? 5760) ||
  ((8192 <=? c) && (c <=? 8202)) || (c =? 8232) || (c =? 8233) ||
  (c =? 8239) || (c =? 8287) || (c =? 12288).

Fixpoint dropwhile (p : Z -> bool) (s : str) : str :=
  match s with
  | [] => []
  | c :: r => if p c then dropwhile p r else s
  end.

Fixpoint takewhile (p : Z -> bool) (s : str) : str :=
  match s with
  | [] => []
  | c :: r => if p c then c :: takewhile p r else []
  end.

(** [s.strip()] *)
Definition strip (s : str) : str :=
  rev (dropwhile isspace (rev (dropwhile isspace s))).

(** ** Decoded JSON values

    What [json.loads] returns: [None], [bool], [int], [float], [str],
    [list] and [dict].  A [dict] keeps its keys in insertion order, which
    [json.dumps] shows, so it is an association list; lookup takes the
    first binding of a key.  A [float] is kept as the text it was read
    from. *)

#[local] Unset Elimination Schemes.
Inductive json : Type :=
| JNull
| JBool (b : bool)
| JInt (n : Z)
| JFloat (lexeme : str)
| JStr (s : str)
| JList (l : list json)
| JDict (d : list (str * json)).
#[local] Set Elimination Schemes.

Definition pydict := list (str * json).

(** [d.get(k)]: [None] when [k not in d]. *)
Fixpoint dict_get (k : str) (d : pydict) : option json :=
  match d with
  | [] => None
  | (k', v) :: d' => if str_eqb k k' then Some v else dict_get k d'
  end.

(** [k in d] *)
Definition dict_has (k : str) (d : pydict) : bool :=
  match dict_get k d with Some _ => true | None => false end.

(** [d[k] = v]: an existing key keeps its position. *)
Fixpoint dict_set (k : str) (v : json) (d : pydict) : pydict :=
  match d with
  | [] => [(k, v)]
  | (k', v') :: d' =>
      if str_eqb k k' then (k', v) :: d' else (k', v') :: dict_set k v d'
  end.

(** ** Exceptions *)

Inductive exn : Type :=
| TypeError
| AttributeError
| ValueError
| KeyError
| JSONDecodeError
| BinasciiError
| UnicodeDecodeError
| UnicodeEncodeError.

Inductive outcome (A : Type) : Type :=
| Ok (a : A)
| Raise (e : exn).
Arguments Ok {A} a.
Arguments Raise {A} e.

Definition obind {A B} (o : outcome A) (f : A -> outcome B) : outcome B :=
  match o with
  | Ok a => f a
  | Raise e => Raise e
  end.

(** [try: o  except: h] and [try: o  except Exception as e: h e] *)
Definition otry {A} (o : outcome A) (h : exn -> outcome A) : outcome A :=
  match o with
  | Ok a => Ok a
  | Raise e => h e
  end.

(** ** base64.b64decode and base64.b64encode

    [binascii.a2b_base64] in its default, non-strict mode, as CPython 3.11
    and later write it: characters outside the alphabet are discarded, a
    pad character ends the input once it completes a quad, and leftover
    bits are an error.  The shifts and masks of the C code are written
    as multiplications, quotients and remainders. *)

Module Base64.

Definition PAD : Z := 61.   (* = *)



(** [table_a2b_base64]; 255 marks a character outside the alphabet. *)
Definition a2b (c : Z) : Z :=
  if (65 <=? c) && (c <=? 90) then c - 65
  else if (97 <=? c) && (c <=? 122) then c - 71
  else if (48 <=? c) && (c <=? 57) then c + 4
  else if c =? 43 then 62
  else if c =? 47 then 63
  else 255.

(** The decoding loop.  [out] is the output written so far. *)
Fixpoint a2b_loop (data : str) (quad_pos leftchar pad_count : Z)
    (out : list Z) : outcome (list Z) :=
  match data with
  | [] =>
      if quad_pos =? 0 then Ok out
      else Raise BinasciiError   (* invalid length, or incorrect padding *)
  | this_ch :: rest =>
      if this_ch =? PAD then
        if 2 <=? quad_pos then
          if 4 <=? quad_pos + (pad_count + 1) then Ok out
          else a2b_loop rest quad_pos leftchar (pad_count + 1) out
        else a2b_loop rest quad_pos leftchar pad_count out
      else
        let v := a2b this_ch in
        if 64 <=? v then a2b_loop rest quad_pos leftchar pad_count out
        else if quad_pos =? 0 then
          a2b_loop rest 1 v 0 out
        else if quad_pos =? 1 then
          a2b_loop rest 2 (v mod 16) 0
            (out ++ [(leftchar * 4 + v / 16) mod 256])
        else if quad_pos =? 2 then
          a2b_loop rest 3 (v mod 4) 0
            (out ++ [(leftchar * 16 + v / 4) mod 256])
        else
          a2b_loop rest 0 0 0 (out ++ [(leftchar * 64 + v) mod 256])
  end.

Definition a2b_base64 (data : str) : outcome (list Z) :=
  a2b_loop data 0 0 0 [].

(** [base64.b64decode(s)] for a [str]: non-ASCII text is a [ValueError]. *)
Definition b64decode_str (s : str) : outcome (list Z) :=
  if forallb (fun c => c <? 128) s then a2b_base64 s else Raise ValueError.

(** [base64.b64decode(v)] for [v] any value of the program: only a [str]
    is accepted among the JSON types. *)
Definition b64decode (v : json) : outcome (list Z) :=
  match v with
  | JStr s => b64decode_str s
  | _ => Raise TypeError
  end.


End Base64.

(** ** UTF-8: [bytes.decode("utf-8")] and [str.encode("utf-8")], strict *)

Module Utf8.

Definition is_cont (b : Z) : bool := (128 <=? b) && (b <=? 191).

Definition between (lo hi b : Z) : bool := (lo <=? b) && (b <=? hi).

Fixpoint decode (bs : list Z) : outcome str :=
  match bs with
  | [] => Ok []
  | b0 :: r0 =>
      if b0 <? 128 then obind (decode r0) (fun s => Ok (b0 :: s))
      else if between 194 223 b0 then
        match r0 with
        | b1 :: r1 =>
            if is_cont b1
            then obind (decode r1)
                   (fun s => Ok (((b0 - 192) * 64 + (b1 - 128)) :: s))
            else Raise UnicodeDecodeError
        | _ => Raise UnicodeDecodeError
        end
      else if between 224 239 b0 then
        match r0 with
        | b1 :: b2 :: r2 =>
            if between (if b0 =? 224 then 160 else 128)
                       (if b0 =? 237 then 159 else 191) b1
               && is_cont b2
            then obind (decode r2)
                   (fun s => Ok (((b0 - 224) * 4096 + (b1 - 128) * 64
                                  + (b2 - 128)) :: s))
            else Raise UnicodeDecodeError
        | _ => Raise UnicodeDecodeError
        end
      else if between 240 244 b0 then
        match r0 with
        | b1 :: b2 :: b3 :: r3 =>
            if between (if b0 =? 240 then 144 else 128)
                       (if b0 =? 244 then 143 else 191) b1
               && is_cont b2 && is_cont b3
            then obind (decode r3)
                   (fun s => Ok (((b0 - 240) * 262144 + (b1 - 128) * 4096
                                  + (b2 - 128) * 64 + (b3 - 128)) :: s))
            else Raise UnicodeDecodeError
        | _ => Raise UnicodeDecodeError
        end
      else Raise UnicodeDecodeError
  end.

Definition is_surrogate (c : Z) : bool := (55296 <=? c) && (c <=? 57343).

(** The bytes of one code point; surrogates have no encoding. *)
Definition encode_char (c : Z) : outcome (list Z) :=
  if c <? 128 then Ok [c]
  else if c <? 2048 then Ok [192 + c / 64; 128 + c mod 64]
  else if c <? 65536 then
    if is_surrogate c then Raise UnicodeEncodeError
    else Ok [224 + c / 4096; 128 + c / 64 mod 64; 128 + c mod 64]
  else Ok [240 + c / 262144; 128 + c / 4096 mod 64;
           128 + c / 64 mod 64; 128 + c mod 64].

Fixpoint encode (s : str) : outcome (list Z) :=
  match s with
  | [] => Ok []
  | c :: r =>
      obind (encode_char c) (fun bs =>
      obind (encode r) (fun rest => Ok (bs ++ rest)))
  end.

End Utf8.

(** [base64.b64decode(v).decode("utf-8")] *)
Definition b64decode_utf8 (v : json) : outcome str :=
  obind (Base64.b64decode v) Utf8.decode.

(** ** re.search on the pattern of the source

    The pattern of the source is: the word content between double quotes,
    optional white space, a colon, optional white space, a double quote, a
    group of one or more characters other than the double quote, a double
    quote.  It needs no backtracking: after a run of white space the next
    pattern character is not a space, and after the group it is the quote
    the group excludes, so at each start position there is at most one way
    to match. *)

Module Re.

Fixpoint strip_prefix (p s : str) : option str :=
  match p, s with
  | [], _ => Some s
  | x :: p', y :: s' => if x =? y then strip_prefix p' s' else None
  | _ :: _, [] => None
  end.

Definition not_quote (c : Z) : bool := negb (c =? QUOTE).

(** Group 1 of a match that starts at the head of [s]. *)
Definition match_here (s : str) : option str :=
  match strip_prefix (QUOTE :: lit "content" ++ [QUOTE]) s with
  | None => None
  | Some r =>
      match dropwhile isspace r with
      | c :: r1 =>
          if c =? 58 (* : *) then
            match dropwhile isspace r1 with
            | q :: r2 =>
                if q =? QUOTE then
                  match takewhile not_quote r2, dropwhile not_quote r2 with
                  | g0 :: g, _ :: _ => Some (g0 :: g)
                  | _, _ => None
                  end
                else None
            | [] => None
            end
          else None
      | [] => None
      end
  end.

(** Group 1 of the leftmost match. *)
Fixpoint search_str (s : str) : option str :=
  match match_here s with
  | Some g => Some g
  | None =>
      match s with
      | [] => None
      | _ :: r => search_str r
      end
  end.

(** [re.search(pattern, v)]: anything but a string is a [TypeError]. *)
Definition search (v : json) : outcome (option str) :=
  match v with
  | JStr s => Ok (search_str s)
  | _ => Raise TypeError
  end.

End Re.

(** ** json.loads and json.dumps *)

Module Json.

(** What a scanner returns: a value and the text after it, a syntax error,
    or [OutOfFuel] when the recursion budget of the model is used up
    (lemma [scan_once_fuel] shows [loads] never gets there). *)
Inductive scanned (A : Type) : Type :=
| Scanned (a : A) (rest : str)
| Invalid
| OutOfFuel.
Arguments Scanned {A} a rest.
Arguments Invalid {A}.
Arguments OutOfFuel {A}.

Definition is_ws (c : Z) : bool :=
  (c =? 32) || (c =? 9) || (c =? 10) || (c =? 13).

Definition skip_ws (s : str) : str := dropwhile is_ws s.

Definition is_digit (c : Z) : bool := (48 <=? c) && (c <=? 57).

Definition hex_val (c : Z) : option Z :=
  if is_digit c then Some (c - 48)
  else if (97 <=? c) && (c <=? 102) then Some (c - 87)
  else if (65 <=? c) && (c <=? 70) then Some (c - 55)
  else None.

Definition hex4 (a b c d : Z) : option Z :=
  match hex_val a, hex_val b, hex_val c, hex_val d with
  | Some x, Some y, Some z, Some w => Some (((x * 16 + y) * 16 + z) * 16 + w)
  | _, _, _, _ => None
  end.

(** The character a one-letter escape stands for. *)
Definition backslash (c : Z) : option Z :=
  if c =? QUOTE then Some QUOTE
  else if c =? BACKSLASH then Some BACKSLASH
  else if c =? 47 then Some 47
  else if c =? 98 then Some 8
  else if c =? 102 then Some 12
  else if c =? 110 then Some 10
  else if c =? 114 then Some 13
  else if c =? 116 then Some 9
  else None.

Definition is_high (c : Z) : bool := (55296 <=? c) && (c <=? 56319).
Definition is_low (c : Z) : bool := (56320 <=? c) && (c <=? 57343).
Definition join_surrogates (hi lo : Z) : Z :=
  65536 + (hi - 55296) * 1024 + (lo - 56320).

Definition push (c : Z) (r : option (str * str)) : option (str * str) :=
  match r with
  | Some (t, rest) => Some (c :: t, rest)
  | None => None
  end.

(** [scanstring], strict, from just after the opening quote: the decoded
    string and the text after the closing quote. *)
Fixpoint scanstring (s : str) : option (str * str) :=
  match s with
  | [] => None                                  (* unterminated *)
  | c :: r =>
      if c =? QUOTE then Some ([], r)
      else if c <=? 31 then None                (* control character *)
      else if c =? BACKSLASH then
        match r with
        | [] => None
        | e :: r1 =>
            if e =? 117 (* u *) then
              match r1 with
              | h1 :: h2 :: h3 :: h4 :: r5 =>
                  match hex4 h1 h2 h3 h4 with
                  | None => None
                  | Some u =>
                      match r5 with
                      | b :: u' :: k1 :: k2 :: k3 :: k4 :: r11 =>
                          if is_high u && (b =? BACKSLASH) && (u' =? 117)
                          then
                            match hex4 k1 k2 k3 k4 with
                            | None => None
                            | Some u2 =>
                                if is_low u2
                                then push (join_surrogates u u2)
                                          (scanstring r11)
                                else push u (scanstring r5)
                            end
                          else push u (scanstring r5)
                      | _ => push u (scanstring r5)
                      end
                  end
              | _ => None
              end
            else
              match backslash e with
              | Some x => push x (scanstring r1)
              | None => None
              end
        end
      else push c (scanstring r)
  end.

Definition int_of_digits (ds : str) : Z :=
  fold_left (fun acc d => acc * 10 + (d - 48)) ds 0.

(** [_match_number]: an optional minus sign, then 0 or a run of digits
    not starting with 0, then an optional fraction (a dot and at least one
    digit), then an optional exponent (e or E, an optional sign, at least
    one digit).  With a fraction or an exponent the value is a [float]. *)
Definition scan_sign (s : str) : str * str :=
  match s with
  | c :: r => if c =? 45 then ([c], r) else ([], s)
  | [] => ([], s)
  end.

Definition scan_int (s : str) : option (str * str) :=
  match s with
  | [] => None
  | d :: r =>
      if is_digit d then
        if d =? 48 then Some ([d], r)
        else Some (d :: takewhile is_digit r, dropwhile is_digit r)
      else None
  end.

Definition scan_frac (s : str) : str * str :=
  match s with
  | p :: d1 :: r =>
      if (p =? 46) && is_digit d1
      then (p :: d1 :: takewhile is_digit r, dropwhile is_digit r)
      else ([], s)
  | _ => ([], s)
  end.

Definition scan_exp (s : str) : str * str :=
  match s with
  | e :: r =>
      if (e =? 101) || (e =? 69) then
        let '(esign, r') :=
          match r with
          | x :: r2 => if (x =? 43) || (x =? 45) then ([x], r2) else ([], r)
          | [] => ([], r)
          end in
        match takewhile is_digit r' with
        | [] => ([], s)
        | ds => (e :: esign ++ ds, dropwhile is_digit r')
        end
      else ([], s)
  | [] => ([], s)
  end.

Definition scan_number (s : str) : scanned json :=
  let '(sign, s1) := scan_sign s in
  match scan_int s1 with
  | None => Invalid
  | Some (int_part, s2) =>
      let '(frac, s3) := scan_frac s2 in
      let '(exp, s4) := scan_exp s3 in
      match frac, exp with
      | [], [] =>
          Scanned (JInt (match sign with
                         | [] => int_of_digits int_part
                         | _ => - int_of_digits int_part
                         end)) s4
      | _, _ => Scanned (JFloat (sign ++ int_part ++ frac ++ exp)) s4
      end
  end.

(** A keyword at the head of [s], or else a number. *)
Definition scan_keyword (kw : string) (v : json) (s : str) : scanned json :=
  match Re.strip_prefix (lit kw) s with
  | Some r => Scanned v r
  | None => scan_number s
  end.

(** [scan_once] with the object and array parsers it calls. *)
Fixpoint scan_once (fuel : nat) (s : str) : scanned json :=
  match fuel with
  | O => OutOfFuel
  | S f =>
      match s with
      | [] => Invalid
      | c :: r =>
          if c =? QUOTE then
            match scanstring r with
            | Some (t, rest) => Scanned (JStr t) rest
            | None => Invalid
            end
          else if c =? 123 (* { *) then
            match skip_ws r with
            | [] => Invalid
            | x :: r' =>
                if x =? 125 then Scanned (JDict []) r'
                else parse_pairs f (x :: r') []
            end
          else if c =? 91 (* [ *) then
            match skip_ws r with
            | [] => Invalid
            | x :: r' =>
                if x =? 93 then Scanned (JList []) r'
                else parse_values f (x :: r') []
            end
          else if c =? 110 then scan_keyword "null" JNull s
          else if c =? 116 then scan_keyword "true" (JBool true) s
          else if c =? 102 then scan_keyword "false" (JBool false) s
          else if c =? 78 then scan_keyword "NaN" (JFloat (lit "NaN")) s
          else if c =? 73 then
            scan_keyword "Infinity" (JFloat (lit "Infinity")) s
          else if c =? 45 then
            scan_keyword "-Infinity" (JFloat (lit "-Infinity")) s
          else scan_number s
      end
  end

with parse_pairs (fuel : nat) (s : str) (acc : pydict) : scanned json :=
  match fuel with
  | O => OutOfFuel
  | S f =>
      match s with
      | [] => Invalid
      | q :: r =>
          if q =? QUOTE then
            match scanstring r with
            | None => Invalid
            | Some (key, r1) =>
                match skip_ws r1 with
                | [] => Invalid
                | colon :: r2 =>
                    if colon =? 58 then
                      match scan_once f (skip_ws r2) with
                      | Scanned v r3 =>
                          match skip_ws r3 with
                          | [] => Invalid
                          | x :: r4 =>
                              if x =? 125 (* } *) then
                                Scanned (JDict (dict_set key v acc)) r4
                              else if x =? 44 (* , *) then
                                parse_pairs f (skip_ws r4)
                                  (dict_set key v acc)
                              else Invalid
                          end
                      | Invalid => Invalid
                      | OutOfFuel => OutOfFuel
                      end
                    else Invalid
                end
            end
          else Invalid
      end
  end

with parse_values (fuel : nat) (s : str) (acc : list json) : scanned json :=
  match fuel with
  | O => OutOfFuel
  | S f =>
      match scan_once f s with
      | Scanned v r1 =>
          match skip_ws r1 with
          | [] => Invalid
          | x :: r2 =>
              if x =? 93 (* ] *) then Scanned (JList (acc ++ [v])) r2
              else if x =? 44 (* , *) then
                parse_values f (skip_ws r2) (acc ++ [v])
              else Invalid
          end
      | Invalid => Invalid
      | OutOfFuel => OutOfFuel
      end
  end.

Definition fuel_for (s : str) : nat := 2 * List.length s + 2.

(** [json.loads(s)] for a [str]: a leading byte-order mark, a syntax error
    and text after the value are all a [JSONDecodeError]. *)
Definition loads_str (s : str) : outcome json :=
  match s with
  | 65279 :: _ => Raise JSONDecodeError
  | _ =>
      match scan_once (fuel_for s) (skip_ws s) with
      | Scanned v rest =>
          match skip_ws rest with
          | [] => Ok v
          | _ :: _ => Raise JSONDecodeError
          end
      | Invalid => Raise JSONDecodeError
      | OutOfFuel => Raise JSONDecodeError
      end
  end.

(** [json.loads(v)] for [v] any value of the program. *)
Definition loads (v : json) : outcome json :=
  match v with
  | JStr s => loads_str s
  | _ => Raise TypeError
  end.

(** *** json.dumps(v, indent=2)

    The pure-Python encoder that [indent] selects, with the default
    [ensure_ascii].  How a [float] prints is left to [float_repr], which
    maps the text a float was read from to the [repr] of the float. *)

Section Dumps.

Variable float_repr : str -> str.

Definition hex_digit (v : Z) : Z := if v <? 10 then 48 + v else 87 + v.

Definition u_escape (n : Z) : str :=
  lit "\u" ++ [hex_digit (n / 4096); hex_digit (n / 256 mod 16);
               hex_digit (n / 16 mod 16); hex_digit (n mod 16)].

Definition escape_char (c : Z) : str :=
  if c =? BACKSLASH then lit "\\"
  else if c =? QUOTE then [BACKSLASH; QUOTE]
  else if c =? 8 then lit "\b"
  else if c =? 12 then lit "\f"
  else if c =? 10 then lit "\n"
  else if c =? 13 then lit "\r"
  else if c =? 9 then lit "\t"
  else if (32 <=? c) && (c <=? 126) then [c]
  else if c <? 65536 then u_escape c
  else u_escape (55296 + (c - 65536) / 1024 mod 1024)
       ++ u_escape (56320 + (c - 65536) mod 1024).

(** [encode_basestring_ascii] *)
Definition encode_str (s : str) : str :=
  QUOTE :: flat_map escape_char s ++ [QUOTE].

Definition encode_int (n : Z) : str := lit (NilZero.string_of_int (Z.to_int n)).

Definition newline_indent (level : nat) : str :=
  NEWLINE :: List.concat (repeat (lit "  ") level).

Fixpoint encode (level : nat) (v : json) : str :=
  match v with
  | JNull => lit "null"
  | JBool true => lit "true"
  | JBool false => lit "false"
  | JInt n => encode_int n
  | JFloat x => float_repr x
  | JStr s => encode_str s
  | JList [] => lit "[]"
  | JList (x :: l) =>
      lit "[" ++ newline_indent (S level) ++ encode (S level) x
      ++ (fix items (l : list json) : str :=
            match l with
            | [] => []
            | y :: l' =>
                lit "," ++ newline_indent (S level) ++ encode (S level) y
                ++ items l'
            end) l
      ++ newline_indent level ++ lit "]"
  | JDict [] => lit "{}"
  | JDict ((k, x) :: d) =>
      lit "{" ++ newline_indent (S level) ++ encode_str k ++ lit ": "
      ++ encode (S level) x
      ++ (fix items (d : list (str * json)) : str :=
            match d with
            | [] => []
            | (k', y) :: d' =>
                lit "," ++ newline_indent (S level) ++ encode_str k'
                ++ lit ": " ++ encode (S level) y ++ items d'
            end) d
      ++ newline_indent level ++ lit "}"
  end.

Definition dumps (v : json) : str := encode O v.

End Dumps.

End Json.

(** ** The console and the monad of the program

    [console.print] appends to the one module-level [console]; nothing else
    in the program is mutable.  A message is the fixed text of the source
    line, with the value it interpolates. *)

Inductive message : Type :=
| Say (text : string)
| SayExn (text : string) (e : exn)
| SayStr (text : string) (payload : str).

Definition console := list message.

Definition M (A : Type) : Type := console -> outcome A * console.

Definition ret {A} (a : A) : M A := fun c => (Ok a, c).

Definition bind {A B} (m : M A) (f : A -> M B) : M B :=
  fun c =>
    match m c with
    | (Ok a, c') => f a c'
    | (Raise e, c') => (Raise e, c')
    end.

Definition lift {A} (o : outcome A) : M A := fun c => (o, c).

Definition console_print (m : message) : M unit := fun c => (Ok tt, c ++ [m]).

(** [try: m  except Exception as e: h e] *)
Definition try_except {A} (m : M A) (h : exn -> M A) : M A :=
  fun c =>
    match m c with
    | (Ok a, c') => (Ok a, c')
    | (Raise e, c') => h e c'
    end.

(** [try: m  except cls as e: h e]: other exceptions go on. *)
Definition try_except_only {A} (cls : exn -> bool) (m : M A)
    (h : exn -> M A) : M A :=
  fun c =>
    match m c with
    | (Ok a, c') => (Ok a, c')
    | (Raise e, c') => if cls e then h e c' else (Raise e, c')
    end.

Definition is_JSONDecodeError (e : exn) : bool :=
  match e with JSONDecodeError => true | _ => false end.

Declare Scope prog_scope.
Delimit Scope prog_scope with prog.
Notation "x <- m ;; k" := (bind m (fun x => k))
  (at level 61, m at next level, right associativity) : prog_scope.
Notation "m ;; k" := (bind m (fun _ => k))
  (at level 61, right associativity) : prog_scope.
Open Scope prog_scope.

(** ** extract_repos_from_response (lines 149-202) *)

(** [isinstance(item, dict) and "full_name" in item] *)
Definition looks_like_repo (item : json) : bool :=
  match item with
  | JDict d => dict_has (lit "full_name") d
  | _ => false
  end.

(** [all(... for item in xs[:3])] *)
Definition first_three_look_like_repos (xs : list json) : bool :=
  forallb looks_like_repo (firstn 3 xs).

(** [k in d and isinstance(d[k], list)], with [d[k]] when it holds. *)
Definition list_field (k : string) (d : pydict) : option (list json) :=
  match dict_get (lit k) d with
  | Some (JList l) => Some l
  | _ => None
  end.

(** The body of the [try] of Format 3 for [item["text"]]: the list it
    returns, or [None] when it falls through. *)
Definition repos_of_text (text : json) : outcome (option (list json)) :=
  obind (Json.loads text) (fun data =>
    match data with
    | JDict d =>
        match list_field "items" d with
        | Some l => Ok (Some l)
        | None =>
            match list_field "repositories" d with
            | Some l => Ok (Some l)
            | None =>
                match list_field "data" d with
                | Some l => Ok (Some l)
                | None => Ok None
                end
            end
        end
    | JList l =>
        if first_three_look_like_repos l then Ok (Some l) else Ok None
    | _ => Ok None
    end).

(** The [for] loop of Format 3: the list some item returns, or [None]
    when the loop runs to its end. *)
Fixpoint content_loop (items : list json) : outcome (option (list json)) :=
  match items with
  | [] => Ok None
  | item :: rest =>
      match item with
      | JDict d =>
          match dict_get (lit "text") d with
          | Some text =>
              obind (otry (repos_of_text text) (fun _ => Ok None))
                (fun r =>
                   match r with
                   | Some l => Ok (Some l)
                   | None => content_loop rest
                   end)
          | None => content_loop rest
          end
      | _ => content_loop rest
      end
  end.

Definition extract_repos_from_response (response_data : json)
    : outcome (list json) :=
  match response_data with
  | JList l =>
      if first_three_look_like_repos l then Ok l else Ok []
  | JDict d =>
      match list_field "items" d with
      | Some l => Ok l
      | None =>
          match list_field "repositories" d with
          | Some l => Ok l
          | None =>
              match list_field "content" d with
              | Some items =>
                  obind (content_loop items) (fun r =>
                    match r with
                    | Some l => Ok l
                    | None => Ok []
                    end)
              | None =>            (* the [elif] of Format 4 *)
                  match list_field "data" d with
                  | Some l => Ok l
                  | None => Ok []
                  end
              end
          end
      end
  | _ => Ok []
  end.

(** ** The decoding loops shared by extract_file_content and
       get_readme_content *)

(** [not file_content] for [None] or a string *)
Definition falsy (file_content : option str) : bool :=
  match file_content with
  | None => true
  | Some [] => true
  | Some (_ :: _) => false
  end.

(** The text of an item with its newline characters removed, then its
    backslash-n pairs removed, then stripped, as the two [replace] calls
    and [strip] of the source do; a value that is not a string has no
    [replace]. *)
Definition clean_text (text : json) : outcome str :=
  match text with
  | JStr t => Ok (strip (replace (lit "\n") [] (replace [NEWLINE] [] t)))
  | _ => Raise AttributeError
  end.

(** The loop over [result["content"]] that looks for the pattern in each
    item's text (lines 619-646, and 330-362 with another message).  [Some]
    is the value assigned before [break]. *)
Fixpoint regex_loop (found : string) (items : list json) : M (option str) :=
  match items with
  | [] => ret None
  | item :: rest =>
      match item with
      | JDict d =>
          match dict_get (lit "text") d with
          | Some raw_text =>
              r <- try_except
                     (content_match <- lift (Re.search raw_text) ;;
                      match content_match with
                      | Some group1 =>
                          let base64_data := replace (lit "\n") [] group1 in
                          try_except
                            (content <- lift (b64decode_utf8
                                                (JStr base64_data)) ;;
                             console_print (Say found) ;;
                             ret (Some content))
                            (fun e =>
                               console_print
                                 (SayExn "Base64 decode error" e) ;;
                               ret None)
                      | None => ret None
                      end)
                     (fun e =>
                        console_print (SayExn "Regex extraction error" e) ;;
                        ret None) ;;
              match r with
              | Some content => ret (Some content)
              | None => regex_loop found rest
              end
          | None => regex_loop found rest
          end
      | _ => regex_loop found rest
      end
  end.

(** [if isinstance(result, dict) and "content" in result and
    isinstance(result["content"], list): for item in ...] *)
Definition regex_pass (found : string) (result : json) : M (option str) :=
  match result with
  | JDict d =>
      match dict_get (lit "content") d with
      | Some (JList items) => regex_loop found items
      | _ => ret None
      end
  | _ => ret None
  end.

(** Format 1 (lines 654-660 and 371-379): the value of the variable after
    the [try], given its value [current] before. *)
Definition format1 (content : json) (current : option str)
    : M (option str) :=
  try_except
    (match content with
     | JStr _ =>
         decoded <- lift (b64decode_utf8 content) ;;
         ret (Some decoded)
     | _ => ret current
     end)
    (fun e =>
       console_print (SayExn "Format 1 extraction failed" e) ;;
       ret current).

(** The [try] body the list loops share: parse the cleaned text and decode
    the [content] of a mapping. *)
Definition parse_and_decode (text : json) : M (json * option str) :=
  cleaned <- lift (clean_text text) ;;
  content_json <- lift (Json.loads_str cleaned) ;;
  match content_json with
  | JDict cd =>
      match dict_get (lit "content") cd with
      | Some c =>
          decoded <- lift (b64decode_utf8 c) ;;
          ret (content_json, Some decoded)
      | None => ret (content_json, None)
      end
  | _ => ret (content_json, None)
  end.

(** ** extract_file_content (lines 594-697) *)

(** ["result" in r] for a response line [r]: a key of a mapping, an element
    of a sequence, a substring of a string; other values do not support
    [in]. *)
Definition has_result (r : json) : outcome bool :=
  match r with
  | JDict d => Ok (dict_has (lit "result") d)
  | JList l =>
      Ok (existsb (fun x => match x with
                            | JStr t => str_eqb t (lit "result")
                            | _ => false
                            end) l)
  | JStr t => Ok (str_contains (lit "result") t)
  | _ => Raise TypeError
  end.

(** [next((r for r in file_result if "result" in r), None)] *)
Fixpoint first_with_result (file_result : list json)
    : outcome (option json) :=
  match file_result with
  | [] => Ok None
  | r :: rest =>
      obind (has_result r) (fun b =>
        if b then Ok (Some r) else first_with_result rest)
  end.

(** [valid_file["result"]] *)
Definition result_of (valid_file : json) : outcome json :=
  match valid_file with
  | JDict d =>
      match dict_get (lit "result") d with
      | Some v => Ok v
      | None => Raise KeyError
      end
  | _ => Raise TypeError
  end.

Section FileContent.

Variable float_repr : str -> str.

(** The loop of Format 2 (lines 664-690). *)
Fixpoint format2_loop (items : list json) : M (option str) :=
  match items with
  | [] => ret None
  | item :: rest =>
      match item with
      | JDict d =>
          match dict_get (lit "text") d with
          | Some text =>
              r <- try_except
                     (p <- parse_and_decode text ;; ret (snd p))
                     (fun e =>
                        console_print (SayExn "JSON parsing error" e) ;;
                        match text with
                        | JStr t =>
                            if startswith (lit "{") t || startswith (lit "[") t
                            then
                              try_except_only is_JSONDecodeError
                                (v <- lift (Json.loads_str t) ;;
                                 ret (Some (Json.dumps float_repr v)))
                                (fun _ => ret (Some t))
                            else ret None
                        | _ => ret None
                        end) ;;
              match r with
              | Some content => ret (Some content)
              | None => format2_loop rest
              end
          | None => format2_loop rest
          end
      | _ => format2_loop rest
      end
  end.

(** Lines 606-697: from the selected [result] to the returned
    [file_content]. *)
Definition file_content_of (result : json) : M (option str) :=
  console_print
    (SayStr "Debug raw result"
            (firstn 300 (Json.dumps float_repr result))) ;;
  file_content <- regex_pass "Successfully extracted content using regex"
                    result ;;
  file_content <-
    (if falsy file_content then
       console_print
         (Say "Regex approach failed, trying JSON parsing methods...") ;;
       match result with
       | JDict d =>
           match dict_get (lit "content") d with
           | Some content => format1 content file_content
           | None => ret file_content
           end
       | JList (item :: rest) =>
           r <- format2_loop (item :: rest) ;;
           ret match r with
               | Some content => Some content
               | None => file_content
               end
       | _ => ret file_content
       end
     else ret file_content) ;;
  (if falsy file_content then
     console_print (Say "Could not extract file content from response") ;;
     console_print (Say "Response structure (truncated):") ;;
     console_print
       (SayStr "..." (firstn 300 (Json.dumps float_repr result)))
   else ret tt) ;;
  ret file_content.

(** [file_result] is what [run_mcp_command] returned: [None] or the list
    of the response lines that parsed. *)
Definition extract_file_content (file_result : option (list json))
    : M (option str) :=
  match file_result with
  | None | Some [] =>
      console_print (Say "Failed to fetch file") ;; ret None
  | Some lines =>
      valid_file <- lift (first_with_result lines) ;;
      match valid_file with
      | None =>
          console_print (Say "Invalid file result response") ;; ret None
      | Some valid_file =>
          result <- lift (result_of valid_file) ;;
          file_content_of result
      end
  end.

End FileContent.

(** ** get_readme_content (lines 322-448): the value of [decoded_content]
       once the three formats have been tried on [result] *)

(** The loop of Format 2 (lines 383-406): a failure is only reported. *)
Fixpoint readme_format2_loop (items : list json) : M (option str) :=
  match items with
  | [] => ret None
  | item :: rest =>
      match item with
      | JDict d =>
          match dict_get (lit "text") d with
          | Some text =>
              r <- try_except
                     (p <- parse_and_decode text ;; ret (snd p))
                     (fun e =>
                        console_print (SayExn "README parsing error" e) ;;
                        ret None) ;;
              match r with
              | Some content => ret (Some content)
              | None => readme_format2_loop rest
              end
          | None => readme_format2_loop rest
          end
      | _ => readme_format2_loop rest
      end
  end.

(** ["# " in text or "## " in text] *)
Definition looks_like_markdown (t : str) : bool :=
  str_contains (lit "# ") t || str_contains (lit "## ") t.

(** The loop of Format 3 (lines 414-448): a parsed string is taken as it
    is, and after a failure a text with a heading marker is taken as it
    is. *)
Fixpoint readme_format3_loop (items : list json) : M (option str) :=
  match items with
  | [] => ret None
  | item :: rest =>
      match item with
      | JDict d =>
          match dict_get (lit "text") d with
          | Some text =>
              r <- try_except
                     (p <- parse_and_decode text ;;
                      match p with
                      | (_, Some content) => ret (Some content)
                      | (JStr content, None) => ret (Some content)
                      | (_, None) => ret None
                      end)
                     (fun e =>
                        console_print
                          (SayExn "README format 3 parsing error" e) ;;
                        match text with
                        | JStr t =>
                            if looks_like_markdown t then ret (Some t)
                            else ret None
                        | _ => ret None
                        end) ;;
              match r with
              | Some content => ret (Some content)
              | None => readme_format3_loop rest
              end
          | None => readme_format3_loop rest
          end
      | _ => readme_format3_loop rest
      end
  end.

(** The conditions of the [if] / [elif] / [elif] chain of lines 371-413. *)
Definition is_format1 (result : json) : bool :=
  match result with
  | JDict d => dict_has (lit "content") d
  | _ => false
  end.

Definition is_format2 (result : json) : bool :=
  match result with
  | JList (_ :: _) => true
  | _ => false
  end.

Definition is_format3 (result : json) : bool :=
  match result with
  | JDict d =>
      match dict_get (lit "content") d with
      | Some (JList _) => true
      | _ => false
      end
  | _ => false
  end.

Definition keep (current new : option str) : option str :=
  match new with
  | Some content => Some content
  | None => current
  end.

Definition readme_decoded_content (result : json) : M (option str) :=
  decoded_content <-
    regex_pass "Successfully extracted README content using regex" result ;;
  if falsy decoded_content then
    console_print
      (Say "Regex approach failed for README, trying JSON parsing methods...") ;;
    if is_format1 result then
      match result with
      | JDict d =>
          match dict_get (lit "content") d with
          | Some content => format1 content decoded_content
          | None => ret decoded_content
          end
      | _ => ret decoded_content
      end
    else if is_format2 result then
      match result with
      | JList items =>
          r <- readme_format2_loop items ;; ret (keep decoded_content r)
      | _ => ret decoded_content
      end
    else if is_format3 result then
      match result with
      | JDict d =>
          match dict_get (lit "content") d with
          | Some (JList items) =>
              r <- readme_format3_loop items ;; ret (keep decoded_content r)
          | _ => ret decoded_content
          end
      | _ => ret decoded_content
      end
    else ret decoded_content
  else ret decoded_content.

(** ** The two operations of the specification

    [extract_records] is [extract_repos_from_response].  [extract_text]
    is [extract_file_content] on a response whose one line carries the
    envelope as its [result]. *)

Definition extract_records (envelope : json) : outcome (list json) :=
  extract_repos_from_response envelope.

Definition extract_text (float_repr : str -> str) (envelope : json)
    : M (option str) :=
  extract_file_content float_repr
    (Some [JDict [(lit "result", envelope)]]).

(** The result of a run, without the console. *)
Definition result_of_run {A} (r : outcome A * console) : outcome A := fst r.

(** ** Vocabulary of the properties *)




(** A computation is [oblivious] when its result and the messages it
    prints do not depend on the console it starts from. *)
Definition oblivious {A} (m : M A) : Prop :=
  exists (o : outcome A) (msgs : list message),
    forall c, m c = (o, c ++ msgs).

(** It [returns] when, in addition, it never raises. *)
Definition returns {A} (m : M A) : Prop :=
  exists (a : A) (msgs : list message),
    forall c, m c = (Ok a, c ++ msgs).

(** [yields m a]: from any console, [m] returns [a]. *)
Definition yields {A} (m : M A) (a : A) : Prop :=
  exists msgs : list message, forall c, m c = (Ok a, c ++ msgs).




(** ** The envelopes of the scenarios *)

(** A word between double quotes. *)
Definition quoted (s : string) : str := [QUOTE] ++ lit s ++ [QUOTE].

(** The mapping whose [content] is the one item of text [t]. *)
Definition content_items (t : str) : json :=
  JDict [(lit "content", JList [JDict [(lit "text", JStr t)]])].

(** The JSON text of a mapping with the field [content] of value
    [SGVsbG8=]. *)
Definition hello_text : str :=
  lit "{" ++ quoted "content" ++ lit ": " ++ quoted "SGVsbG8=" ++ lit "}".

(** The text of the heading scenario: [# Title], a newline, [Body]. *)
Definition title_text : str := lit "# Title" ++ [NEWLINE] ++ lit "Body".

(** The JSON text of a mapping with the field [repositories] of value
    the sequence 1, 2. *)
Definition repositories_text : str :=
  lit "{" ++ quoted "repositories" ++ lit ": [1, 2]}".


(** ** What the decoding computes

    The values the loops and formats arrive at, without the console and
    the exceptions on the way: the properties below show the code
    computes them. *)

(** The first item whose text holds the pattern with a group that
    decodes. *)
Fixpoint regex_value (items : list json) : option str :=
  match items with
  | [] => None
  | JDict d :: rest =>
      match dict_get (lit "text") d with
      | Some (JStr text) =>
          match Re.search_str text with
          | Some group1 =>
              match b64decode_utf8 (JStr (replace (lit "\n") [] group1)) with
              | Ok content => Some content
              | Raise _ => regex_value rest
              end
          | None => regex_value rest
          end
      | _ => regex_value rest
      end
  | _ :: rest => regex_value rest
  end.

(** What a mapping [d] given as [result] decodes to. *)
Definition mapping_value (d : pydict) : option str :=
  match dict_get (lit "content") d with
  | Some (JList items) => regex_value items
  | Some (JStr encoded) =>
      match b64decode_utf8 (JStr encoded) with
      | Ok content => Some content
      | Raise _ => None
      end
  | _ => None
  end.

(** A response line that is [None], a [bool] or a number: a value that
    does not support [in]. *)
Definition not_iterable (line : json) : Prop :=
  match line with
  | JNull | JBool _ | JInt _ | JFloat _ => True
  | _ => False
  end.

(** The three fields a mapping is searched for records in. *)
Definition record_fields : list string :=
  ["items"; "repositories"; "data"]%string.

(** ** run_mcp_command (lines 62-91): from the finished process to the
       returned responses

    The request, the shell command and [subprocess.run] come before; what
    is modelled is what the function does with the [returncode],
    [stdout] and [stderr] of the finished process. *)






(** ** get_tools_list (lines 209-220) and the tool lookups of its callers,
       from the responses of [run_mcp_command] *)

(** [k in v] for a string [k]: a key of a mapping, an element of a
    sequence, a substring of a string. *)
Definition py_in (k : string) (v : json) : outcome bool :=
  match v with
  | JDict d => Ok (dict_has (lit k) d)
  | JList l =>
      Ok (existsb (fun x => match x with
                            | JStr t => str_eqb t (lit k)
                            | _ => false
                            end) l)
  | JStr t => Ok (str_contains (lit k) t)
  | _ => Raise TypeError
  end.

(** [v[k]] for a string [k] *)
Definition py_getitem (v : json) (k : string) : outcome json :=
  match v with
  | JDict d =>
      match dict_get (lit k) d with
      | Some x => Ok x
      | None => Raise KeyError
      end
  | _ => Raise TypeError
  end.

(** ["result" in r and "tools" in r["result"]] *)
Definition has_tools (r : json) : outcome bool :=
  obind (py_in "result" r) (fun b =>
    if b then obind (py_getitem r "result") (py_in "tools") else Ok false).

Fixpoint first_with_tools (tools_result : list json)
    : outcome (option json) :=
  match tools_result with
  | [] => Ok None
  | r :: rest =>
      obind (has_tools r) (fun b =>
        if b then Ok (Some r) else first_with_tools rest)
  end.

(** [get_tools_list] once [run_mcp_command] has returned [tools_result];
    Python's [None] is [JNull]. *)
Definition get_tools_list_from (tools_result : option (list json))
    : M json :=
  match tools_result with
  | None | Some [] =>
      console_print (Say "Failed to retrieve tools list.") ;; ret JNull
  | Some lines =>
      valid_result <- lift (first_with_tools lines) ;;
      match valid_result with
      | None =>
          console_print (Say "Invalid tools list response.") ;; ret JNull
      | Some valid_result =>
          result <- lift (py_getitem valid_result "result") ;;
          lift (py_getitem result "tools")
      end
  end.

(** [next((t for t in tools_list if t["name"] == name), None)] for a
    sequence [tools_list] (lines 244, 298, 488 and 576); Python's [None]
    is [JNull]. *)
Fixpoint find_tool (name : string) (tools_list : list json) : outcome json :=
  match tools_list with
  | [] => Ok JNull
  | t :: rest =>
      obind (py_getitem t "name") (fun n =>
        match n with
        | JStr s => if str_eqb s (lit name) then Ok t else find_tool name rest
        | _ => find_tool name rest
        end)
  end.

(** ** display_file_content (lines 700-730) *)

(** [s.endswith(suffix)] *)
Definition endswith (suffix : string) (s : str) : bool :=
  startswith (rev (lit suffix)) (rev s).

(** Lines 706-714. *)
Definition language_of (file_path : str) : string :=
  let language :=
    if endswith ".json" file_path then "json"%string else "text"%string in
  if endswith ".js" file_path then "javascript"%string
  else if endswith ".py" file_path then "python"%string
  else if endswith ".md" file_path then "markdown"%string
  else if endswith ".rst" file_path then "rst"%string
  else language.





(** An occurrence of the pattern of line 628: the word content between
    quotes, white space, a colon, white space, a quote, the group, a
    quote. *)
Definition pattern_instance (ws1 ws2 group1 : str) : str :=
  quoted "content" ++ ws1 ++ [58] ++ ws2 ++ [QUOTE] ++ group1 ++ [QUOTE].



(** ** display_tools (lines 94-131): the table it builds

    The rows added to the table and whether the caption is set; the
    rendering by [console.print] comes after.  [tools] is a sequence. *)

(** [a < b] for strings: lexicographic, by code point. *)
Fixpoint str_ltb (a b : str) : bool :=
  match a, b with
  | _, [] => false
  | [], _ :: _ => true
  | x :: a', y :: b' => (x <? y) || ((x =? y) && str_ltb a' b')
  end.

Inductive category : Type := RepoTool | FileTool | OtherTool.

(** [x["name"]] for a tool that went through the loop of lines 107-114,
    where its name is a string. *)
Definition name_key (tool : json) : str :=
  match tool with
  | JDict d =>
      match dict_get (lit "name") d with
      | Some (JStr s) => s
      | _ => []
      end
  | _ => []
  end.

(** [sorted(tools, key=lambda x: x["name"])]: stable, so an insertion
    that puts a tool before the first one that is not smaller gives the
    same list. *)
Fixpoint insert_by_name (tool : json) (sorted : list json) : list json :=
  match sorted with
  | [] => [tool]
  | t :: rest =>
      if str_ltb (name_key t) (name_key tool)
      then t :: insert_by_name tool rest
      else tool :: t :: rest
  end.

Fixpoint sorted_by_name (tools : list json) : list json :=
  match tools with
  | [] => []
  | tool :: rest => insert_by_name tool (sorted_by_name rest)
  end.

(** [l[:n]] *)
Definition slice_to {A} (n : Z) (l : list A) : list A :=
  if 0 <=? n then firstn (Z.to_nat n) l
  else firstn (List.length l - Z.to_nat (- n)) l.

(** [(tool["name"], tool.get("description", "No description"))] *)
Definition row_of (tool : json) : str * json :=
  (name_key tool,
   match tool with
   | JDict d =>
       match dict_get (lit "description") d with
       | Some description => description
       | None => JStr (lit "No description")
       end
   | _ => JStr (lit "No description")
   end).

Section DisplayTools.

(** [str.lower] *)
Variable lower : str -> str.

(** The tests of lines 109-114 on the lowered name. *)
Definition category_of (name : str) : category :=
  if str_contains (lit "repo") name || str_contains (lit "pull") name
     || str_contains (lit "issue") name
  then RepoTool
  else if str_contains (lit "file") name || str_contains (lit "content") name
  then FileTool
  else OtherTool.

(** [tool["name"].lower()]: a value without [lower] is an
    [AttributeError]. *)
Definition lowered_name (tool : json) : outcome str :=
  obind (py_getitem tool "name") (fun name =>
    match name with
    | JStr s => Ok (lower s)
    | _ => Raise AttributeError
    end).

(** The loop of lines 107-114: the three lists. *)
Fixpoint categorize (tools : list json)
    : outcome (list json * list json * list json) :=
  match tools with
  | [] => Ok ([], [], [])
  | tool :: rest =>
      obind (lowered_name tool) (fun name =>
      obind (categorize rest) (fun '(repo_tools, file_tools, other_tools) =>
        match category_of name with
        | RepoTool => Ok (tool :: repo_tools, file_tools, other_tools)
        | FileTool => Ok (repo_tools, tool :: file_tools, other_tools)
        | OtherTool => Ok (repo_tools, file_tools, tool :: other_tools)
        end))
  end.

Definition tool_table (tools : list json) (max_tools : Z)
    : outcome (list (str * json) * bool) :=
  obind (categorize tools) (fun '(repo_tools, file_tools, other_tools) =>
    let display_tools :=
      sorted_by_name repo_tools ++ sorted_by_name file_tools
      ++ sorted_by_name other_tools in
    Ok (map row_of (slice_to max_tools display_tools),
        max_tools <? Z.of_nat (List.length tools))).

End DisplayTools.

(** A tool the loop of [display_tools] accepts: a mapping whose [name] is
    a string. *)
Definition named_tool (tool : json) : Prop :=
  exists d s, tool = JDict d /\ dict_get (lit "name") d = Some (JStr s).


(** * Properties *)

(** ** Library facts: base64 *)













(** ** Library facts: UTF-8 *)










(** ** How a computation uses the console *)

Lemma returns_oblivious {A} (m : M A) : returns m -> oblivious m.
Proof. intros (a & msgs & H). now exists (Ok a), msgs. Qed.

Lemma returns_ret {A} (a : A) : returns (ret a).
Proof. exists a, []. intros c. unfold ret. now rewrite app_nil_r. Qed.

Lemma oblivious_lift {A} (o : outcome A) : oblivious (lift o).
Proof. exists o, []. intros c. unfold lift. now rewrite app_nil_r. Qed.

Lemma returns_print (m : message) : returns (console_print m).
Proof. now exists tt, [m]. Qed.

Lemma returns_bind {A B} (m : M A) (f : A -> M B) :
  returns m -> (forall a, returns (f a)) -> returns (bind m f).
Proof.
  intros (a & msgs & Hm) Hf. destruct (Hf a) as (b & msgs' & Hb).
  exists b, (msgs ++ msgs'). intros c. unfold bind.
  now rewrite Hm, Hb, app_assoc.
Qed.

Lemma oblivious_bind {A B} (m : M A) (f : A -> M B) :
  oblivious m -> (forall a, oblivious (f a)) -> oblivious (bind m f).
Proof.
  intros ([a|e] & msgs & Hm) Hf.
  - destruct (Hf a) as (o & msgs' & Hb).
    exists o, (msgs ++ msgs'). intros c. unfold bind.
    now rewrite Hm, Hb, app_assoc.
  - exists (Raise e), msgs. intros c. unfold bind. now rewrite Hm.
Qed.

Lemma returns_try_except {A} (m : M A) (h : exn -> M A) :
  oblivious m -> (forall e, returns (h e)) -> returns (try_except m h).
Proof.
  intros ([a|e] & msgs & Hm) Hh.
  - exists a, msgs. intros c. unfold try_except. now rewrite Hm.
  - destruct (Hh e) as (a & msgs' & Ha).
    exists a, (msgs ++ msgs'). intros c. unfold try_except.
    now rewrite Hm, Ha, app_assoc.
Qed.

Lemma oblivious_try_except {A} (m : M A) (h : exn -> M A) :
  oblivious m -> (forall e, oblivious (h e)) -> oblivious (try_except m h).
Proof.
  intros ([a|e] & msgs & Hm) Hh.
  - exists (Ok a), msgs. intros c. unfold try_except. now rewrite Hm.
  - destruct (Hh e) as (o & msgs' & Ho).
    exists o, (msgs ++ msgs'). intros c. unfold try_except.
    now rewrite Hm, Ho, app_assoc.
Qed.

(** A narrow [except] is enough when the body raises nothing else. *)
Lemma returns_try_except_only {A} cls (m : M A) (h : exn -> M A) :
  oblivious m ->
  (forall e c c', m c = (Raise e, c') -> cls e = true) ->
  (forall e, returns (h e)) ->
  returns (try_except_only cls m h).
Proof.
  intros ([a|e] & msgs & Hm) Hcls Hh.
  - exists a, msgs. intros c. unfold try_except_only. now rewrite Hm.
  - destruct (Hh e) as (a & msgs' & Ha).
    exists a, (msgs ++ msgs'). intros c. unfold try_except_only.
    rewrite Hm, (Hcls e [] _ (Hm [])), Ha. now rewrite app_assoc.
Qed.

Ltac prog_step :=
  lazymatch goal with
  | |- returns (ret _) => apply returns_ret
  | |- returns (console_print _) => apply returns_print
  | |- returns (bind _ _) => apply returns_bind; [| intro]
  | |- returns (try_except _ _) => apply returns_try_except; [| intro]
  | |- oblivious (lift _) => apply oblivious_lift
  | |- oblivious (ret _) => apply returns_oblivious, returns_ret
  | |- oblivious (console_print _) => apply returns_oblivious, returns_print
  | |- oblivious (bind _ _) => apply oblivious_bind; [| intro]
  | |- oblivious (try_except _ _) => apply oblivious_try_except; [| intro]
  end.

Ltac prog := repeat prog_step.

(** ** The decoding loops never raise *)

Lemma loads_str_raises (s : str) (e : exn) :
  Json.loads_str s = Raise e -> e = JSONDecodeError.
Proof.
  unfold Json.loads_str. intros H.
  destruct s as [|c s']; [|destruct (Z.eqb_spec c 65279)].
  - destruct (Json.scan_once _ _) as [v rest| |];
      [destruct (Json.skip_ws rest)|..]; congruence.
  - subst c. cbn in H. congruence.
  - assert (E : forall X Y : outcome json,
               match c with 65279 => X | _ => Y end = Y).
    { intros X Y. destruct c as [|p|p]; try reflexivity.
      do 16 (destruct p as [p|p|]; try reflexivity). congruence. }
    rewrite E in H.
    destruct (Json.scan_once _ _) as [v rest| |];
      [destruct (Json.skip_ws rest)|..]; congruence.
Qed.

Lemma returns_regex_loop (found : string) (items : list json) :
  returns (regex_loop found items).
Proof.
  induction items as [|item rest IH]; cbn [regex_loop]; [prog|].
  destruct item; try exact IH.
  destruct (dict_get _ _) as [raw_text|]; [|exact IH].
  apply returns_bind.
  - prog. destruct a; prog.
  - intros [content|]; [prog | exact IH].
Qed.

Lemma returns_regex_pass (found : string) (result : json) :
  returns (regex_pass found result).
Proof.
  unfold regex_pass. destruct result; prog.
  destruct (dict_get _ _) as [[]|]; prog. apply returns_regex_loop.
Qed.

Lemma returns_format1 (content : json) (current : option str) :
  returns (format1 content current).
Proof. unfold format1. prog. destruct content; prog. Qed.

Lemma oblivious_parse_and_decode (text : json) :
  oblivious (parse_and_decode text).
Proof.
  unfold parse_and_decode. prog. destruct a0; prog.
  destruct (dict_get _ _); prog.
Qed.

Lemma returns_format2_loop fr (items : list json) :
  returns (format2_loop fr items).
Proof.
  induction items as [|item rest IH]; cbn [format2_loop]; [prog|].
  destruct item; try exact IH.
  destruct (dict_get _ _) as [text|]; [|exact IH].
  apply returns_bind.
  - apply returns_try_except.
    + prog. apply oblivious_parse_and_decode.
    + intro e. prog. destruct text; prog.
      destruct (_ || _); prog.
      apply returns_try_except_only; [prog | | intro; prog].
      intros e0 c c'. unfold bind, lift, ret.
      destruct (Json.loads_str s) eqn:E; [discriminate|].
      intros H. injection H as -> _. now rewrite (loads_str_raises _ _ E).
  - intros [content|]; [prog | exact IH].
Qed.

Lemma returns_file_content_of fr (result : json) :
  returns (file_content_of fr result).
Proof.
  unfold file_content_of. prog.
  - apply returns_regex_pass.
  - destruct (falsy a0); prog.
    destruct result; prog.
    + destruct l; prog. apply returns_format2_loop.
    + destruct (dict_get _ _); prog. apply returns_format1.
  - destruct (falsy a1); prog.
Qed.

Lemma returns_extract_text fr (envelope : json) :
  returns (extract_text fr envelope).
Proof.
  unfold extract_text, extract_file_content.
  assert (E : first_with_result [JDict [(lit "result", envelope)]]
              = Ok (Some (JDict [(lit "result", envelope)]))) by reflexivity.
  rewrite E.
  destruct (returns_file_content_of fr envelope) as (a & msgs & H).
  exists a, msgs. intros c. unfold bind, lift. cbn. apply H.
Qed.

(** ** What a computation returns *)



Lemma yields_returns {A} (m : M A) (a : A) : yields m a -> returns m.
Proof. intros (msgs & H). now exists a, msgs. Qed.

(** What [m] returns from the empty console, it returns from any. *)
Lemma returns_result {A} (m : M A) (c : console) :
  returns m -> result_of_run (m c) = result_of_run (m []).
Proof. intros (a & msgs & H). now rewrite (H c), (H []). Qed.










(** ** extract_records *)

Lemma looks_like_repo_iff (item : json) :
  looks_like_repo item = true <->
  exists d, item = JDict d /\ dict_has (lit "full_name") d = true.
Proof.
  split.
  - destruct item; cbn; try discriminate. intros H. now exists d.
  - intros (d & -> & H). exact H.
Qed.

(** C6: for every envelope that is a mapping with an [items] field whose
    value is a sequence, [extract_records] returns exactly that sequence,
    unmodified and in its original order. *)
Theorem items_field_returned (d : pydict) (l : list json) :
  dict_get (lit "items") d = Some (JList l) ->
  extract_records (JDict d) = Ok l.
Proof.
  intros H. unfold extract_records, extract_repos_from_response, list_field.
  now rewrite H.
Qed.

Lemma items_field_returned_witness :
  extract_records
    (JDict [(lit "items",
             JList [JDict [(lit "full_name", JStr (lit "a/b"))];
                    JDict [(lit "full_name", JStr (lit "c/d"))]])])
  = Ok [JDict [(lit "full_name", JStr (lit "a/b"))];
        JDict [(lit "full_name", JStr (lit "c/d"))]].
Proof. apply items_field_returned. reflexivity. Defined.

(** C10: for an envelope that is a sequence, only the first three elements
    are inspected, for the key [full_name] exactly.  When each of them is
    a mapping with that key the whole sequence is returned as it is,
    whatever the elements beyond the third are; the empty sequence passes
    the test and is returned; when one of the first three is not such a
    mapping the result is the empty sequence. *)
Theorem sequence_checked_on_first_three (l : list json) :
  (Forall (fun item => exists d, item = JDict d /\
                                 dict_has (lit "full_name") d = true)
          (firstn 3 l) ->
   extract_records (JList l) = Ok l) /\
  (Exists (fun item => forall d, item = JDict d ->
                                 dict_has (lit "full_name") d = false)
          (firstn 3 l) ->
   extract_records (JList l) = Ok []) /\
  extract_records (JList []) = Ok [].
Proof.
  unfold extract_records, extract_repos_from_response,
    first_three_look_like_repos.
  split; [|split; [|reflexivity]].
  - intros H.
    replace (forallb looks_like_repo (firstn 3 l)) with true; [reflexivity|].
    symmetry. apply forallb_forall. intros x Hx.
    rewrite Forall_forall in H. apply looks_like_repo_iff. now apply H.
  - intros H.
    replace (forallb looks_like_repo (firstn 3 l)) with false; [reflexivity|].
    symmetry. apply not_true_is_false. intros F.
    rewrite forallb_forall in F. apply Exists_exists in H.
    destruct H as (x & Hx & Hd). specialize (F x Hx).
    apply looks_like_repo_iff in F. destruct F as (d & -> & Hk).
    rewrite (Hd d eq_refl) in Hk. discriminate.
Qed.

(** Three repositories followed by a number and a mapping without the
    key: the four checks stop at the third element. *)
Lemma sequence_checked_on_first_three_witness :
  let repo := JDict [(lit "full_name", JStr (lit "a/b"))] in
  let l := [repo; repo; repo; JInt 7; JDict [(lit "name", JNull)]] in
  extract_records (JList l) = Ok l.
Proof.
  intros repo l.
  apply (proj1 (sequence_checked_on_first_three l)).
  repeat constructor; exists [(lit "full_name", JStr (lit "a/b"))];
    split; reflexivity.
Defined.

(** The key is [full_name] and no other: a mapping with [name] fails the
    check. *)
Lemma other_key_not_identifying :
  extract_records (JList [JDict [(lit "name", JStr (lit "a/b"))]]) = Ok [].
Proof. reflexivity. Qed.

(** C1, at the input where the code departs from it: a mapping with a
    [content] sequence none of whose items produces records and with a
    [data] sequence.  The [elif] of Format 4 is not entered once the
    [content] test of Format 3 has held, so the result is the empty
    sequence and not [data]. *)
Theorem data_skipped_after_content_sequence :
  extract_records
    (JDict [(lit "content", JList []); (lit "data", JList [JInt 1])])
  = Ok [] /\
  extract_records
    (JDict [(lit "content", JList [JDict [(lit "text", JStr (lit "oops"))]]);
            (lit "data", JList [JInt 1])])
  = Ok [].
Proof. split; reflexivity. Qed.

(** What the [elif] does: [data] is returned when no earlier format
    applies and [content] is not a sequence. *)
Lemma data_field_returned (d : pydict) (l : list json) :
  list_field "items" d = None ->
  list_field "repositories" d = None ->
  list_field "content" d = None ->
  dict_get (lit "data") d = Some (JList l) ->
  extract_records (JDict d) = Ok l.
Proof.
  intros Hi Hr Hc Hd. unfold extract_records, extract_repos_from_response.
  rewrite Hi, Hr, Hc. unfold list_field. now rewrite Hd.
Qed.





(** ** extract_text *)















(** Escaped newlines inside the group are removed before decoding. *)
Lemma hello_with_escaped_newlines fr (c : console) :
  result_of_run
    (extract_text fr
       (content_items (quoted "content" ++ lit ":" ++ quoted "SGVs\nbG8=\n"))
       c)
  = Ok (Some (lit "Hello")).
Proof.
  rewrite returns_result by apply returns_extract_text.
  vm_compute. reflexivity.
Qed.

(** ** get_readme_content *)

Lemma returns_readme_format2_loop (items : list json) :
  returns (readme_format2_loop items).
Proof.
  induction items as [|item rest IH]; cbn [readme_format2_loop]; [prog|].
  destruct item; try exact IH.
  destruct (dict_get _ _) as [text|]; [|exact IH].
  apply returns_bind.
  - apply returns_try_except; [|intro; prog].
    prog. apply oblivious_parse_and_decode.
  - intros [content|]; [prog | exact IH].
Qed.

Lemma returns_readme_format3_loop (items : list json) :
  returns (readme_format3_loop items).
Proof.
  induction items as [|item rest IH]; cbn [readme_format3_loop]; [prog|].
  destruct item; try exact IH.
  destruct (dict_get _ _) as [text|]; [|exact IH].
  apply returns_bind.
  - apply returns_try_except.
    + prog; [apply oblivious_parse_and_decode|].
      destruct a as [[] []]; prog.
    + intro e. prog. destruct text; prog.
      destruct (looks_like_markdown s); prog.
  - intros [content|]; [prog | exact IH].
Qed.

Lemma returns_readme_decoded_content (result : json) :
  returns (readme_decoded_content result).
Proof.
  unfold readme_decoded_content. prog; [apply returns_regex_pass|].
  destruct (falsy a); prog.
  destruct (is_format1 result); [|destruct (is_format2 result);
    [|destruct (is_format3 result)]]; destruct result; prog;
    try (destruct (dict_get _ _) as [[]|]; prog);
    try apply returns_format1; try apply returns_readme_format2_loop;
    try apply returns_readme_format3_loop.
Qed.

(** The third branch of the chain is never taken: its test implies the
    test of the first. *)
Lemma format3_unreachable (result : json) :
  is_format3 result = true -> is_format1 result = true.
Proof.
  unfold is_format3, is_format1, dict_has. destruct result; try discriminate.
  now destruct (dict_get _ _).
Qed.

(** What the third branch would do with the heading scenario, were it
    taken: the text, verbatim. *)
Lemma heading_fallback_of_format3 (c : console) :
  result_of_run
    (readme_format3_loop [JDict [(lit "text", JStr title_text)]] c)
  = Ok (Some title_text).
Proof.
  rewrite returns_result by apply returns_readme_format3_loop.
  vm_compute. reflexivity.
Qed.

(** C2, at the scenario of the claim: the text [# Title], newline, [Body]
    is not JSON, holds no pattern and holds a heading marker, and both
    [extract_file_content] and the decoding of [get_readme_content] end
    with absent, not with the text. *)
Theorem heading_scenario_absent fr (c : console) :
  Json.loads_str title_text = Raise JSONDecodeError /\
  Re.search_str title_text = None /\
  looks_like_markdown title_text = true /\
  result_of_run (extract_text fr (content_items title_text) c) = Ok None /\
  result_of_run (readme_decoded_content (content_items title_text) c)
  = Ok None.
Proof.
  split; [reflexivity|]. split; [reflexivity|]. split; [reflexivity|].
  split.
  - rewrite returns_result by apply returns_extract_text.
    vm_compute. reflexivity.
  - rewrite returns_result by apply returns_readme_decoded_content.
    vm_compute. reflexivity.
Qed.

(** ** Determinism *)




(** ** The recursion budget of the JSON scanner is enough *)

Lemma dropwhile_length (p : Z -> bool) (s : str) :
  (List.length (dropwhile p s) <= List.length s)%nat.
Proof.
  induction s as [|c r IH]; cbn; [lia|]. destruct (p c); cbn; lia.
Qed.

Lemma skip_ws_length (s : str) :
  (List.length (Json.skip_ws s) <= List.length s)%nat.
Proof. apply dropwhile_length. Qed.

Lemma strip_prefix_length (p s r : str) :
  Re.strip_prefix p s = Some r -> (List.length r <= List.length s)%nat.
Proof.
  revert s. induction p as [|x p IH]; intros s H; cbn in H.
  - destruct s; injection H as <-; lia.
  - destruct s as [|y s]; [discriminate|]. destruct (x =? y); [|discriminate].
    apply IH in H. cbn. lia.
Qed.

Lemma push_some (c : Z) (o : option (str * str)) (t rest : str) :
  Json.push c o = Some (t, rest) -> exists t', o = Some (t', rest).
Proof.
  destruct o as [[t' rest']|]; cbn; [|discriminate].
  intros H. injection H as _ <-. now exists t'.
Qed.

Ltac push_case IH :=
  match goal with
  | H : Json.push _ (Json.scanstring _) = Some _ |- _ =>
      apply push_some in H; destruct H as (? & H); apply IH in H;
      cbn [List.length] in *; lia
  end.

Lemma scanstring_length (n : nat) :
  forall s t rest,
    (List.length s <= n)%nat -> Json.scanstring s = Some (t, rest) ->
    (List.length rest <= List.length s)%nat.
Proof.
  induction n as [|n IH]; intros s t rest Hn H;
    (destruct s as [|c r]; [discriminate|]); cbn [List.length] in Hn; [lia|].
  cbn [Json.scanstring] in H.
  destruct (c =? QUOTE); [injection H as _ <-; cbn; lia|].
  destruct (c <=? 31); [discriminate|].
  destruct (c =? BACKSLASH); [|push_case IH].
  destruct r as [|e r1]; [discriminate|]. cbn [List.length] in Hn.
  destruct (e =? 117).
  - destruct r1 as [|h1 [|h2 [|h3 [|h4 r5]]]]; try discriminate.
    cbn [List.length] in Hn.
    destruct (Json.hex4 h1 h2 h3 h4) as [u|]; [|discriminate].
    destruct r5 as [|b [|u' [|k1 [|k2 [|k3 [|k4 r11]]]]]];
      try push_case IH.
    cbn [List.length] in Hn.
    destruct (_ && _); [|push_case IH].
    destruct (Json.hex4 k1 k2 k3 k4) as [u2|]; [|discriminate].
    destruct (Json.is_low u2); push_case IH.
  - destruct (Json.backslash e); [push_case IH | discriminate].
Qed.

Lemma scan_sign_length (s : str) :
  (List.length (snd (Json.scan_sign s)) <= List.length s)%nat.
Proof. destruct s as [|c r]; cbn; [lia|]. destruct (c =? 45); cbn; lia. Qed.

Lemma scan_int_length (s p r : str) :
  Json.scan_int s = Some (p, r) -> (List.length r <= List.length s)%nat.
Proof.
  destruct s as [|d s']; cbn; [discriminate|].
  destruct (Json.is_digit d); [|discriminate].
  pose proof (dropwhile_length Json.is_digit s') as Hd.
  destruct (d =? 48); intros H; injection H as _ <-; lia.
Qed.

Lemma scan_frac_length (s : str) :
  (List.length (snd (Json.scan_frac s)) <= List.length s)%nat.
Proof.
  destruct s as [|p [|d1 r]]; cbn; try lia.
  pose proof (dropwhile_length Json.is_digit r) as Hd.
  destruct (_ && _); cbn; lia.
Qed.

Lemma scan_exp_length (s : str) :
  (List.length (snd (Json.scan_exp s)) <= List.length s)%nat.
Proof.
  destruct s as [|e r]; cbn; [lia|].
  destruct (_ || _); cbn; [|lia].
  destruct r as [|x r2]; cbn; [lia|].
  pose proof (dropwhile_length Json.is_digit r2) as Hd.
  pose proof (dropwhile_length Json.is_digit (x :: r2)) as Hx.
  cbn [List.length] in Hx.
  destruct (_ || _); destruct (takewhile _ _); cbn [snd List.length]; lia.
Qed.

Lemma scan_number_length (s : str) (v : json) (rest : str) :
  Json.scan_number s = Json.Scanned v rest ->
  (List.length rest <= List.length s)%nat.
Proof.
  unfold Json.scan_number.
  pose proof (scan_sign_length s) as H1.
  destruct (Json.scan_sign s) as [sign s1]. cbn [snd] in H1.
  destruct (Json.scan_int s1) as [[int_part s2]|] eqn:E; [|discriminate].
  apply scan_int_length in E.
  pose proof (scan_frac_length s2) as H3.
  destruct (Json.scan_frac s2) as [frac s3]. cbn [snd] in H3.
  pose proof (scan_exp_length s3) as H4.
  destruct (Json.scan_exp s3) as [exp s4]. cbn [snd] in H4.
  destruct frac, exp; intros H; injection H as _ <-; lia.
Qed.

Lemma scan_keyword_length kw w (s : str) (v : json) (rest : str) :
  Json.scan_keyword kw w s = Json.Scanned v rest ->
  (List.length rest <= List.length s)%nat.
Proof.
  unfold Json.scan_keyword.
  destruct (Re.strip_prefix (lit kw) s) as [r|] eqn:E.
  - intros H. injection H as _ <-. now apply strip_prefix_length in E.
  - apply scan_number_length.
Qed.

Ltac ws_case r r' :=
  let Hw := fresh "Hw" in
  let x := fresh "x" in
  pose proof (skip_ws_length r) as Hw;
  destruct (Json.skip_ws r) as [|x r']; cbn [List.length] in Hw.

(** A scanner leaves no more text than it was given. *)
Lemma scan_length (fuel : nat) :
  (forall s v rest,
     Json.scan_once fuel s = Json.Scanned v rest ->
     (List.length rest <= List.length s)%nat) /\
  (forall s acc v rest,
     Json.parse_pairs fuel s acc = Json.Scanned v rest ->
     (List.length rest <= List.length s)%nat) /\
  (forall s acc v rest,
     Json.parse_values fuel s acc = Json.Scanned v rest ->
     (List.length rest <= List.length s)%nat).
Proof.
  induction fuel as [|f (IHo & IHp & IHv)];
    [repeat split; intros; discriminate|].
  split; [|split].
  - intros s v rest H. cbn [Json.scan_once] in H.
    destruct s as [|c r]; [discriminate|]. cbn [List.length].
    destruct (c =? QUOTE).
    { destruct (Json.scanstring r) as [[t rest']|] eqn:E; [|discriminate].
      injection H as _ <-.
      apply (scanstring_length (List.length r)) in E; lia. }
    destruct (c =? 123).
    { ws_case r r'; [discriminate|]. destruct (_ =? 125).
      - injection H as _ <-. lia.
      - apply IHp in H. cbn [List.length] in H. lia. }
    destruct (c =? 91).
    { ws_case r r'; [discriminate|]. destruct (_ =? 93).
      - injection H as _ <-. lia.
      - apply IHv in H. cbn [List.length] in H. lia. }
    repeat (destruct (c =? _);
            [apply scan_keyword_length in H; cbn [List.length] in H; lia|]).
    apply scan_number_length in H. cbn [List.length] in H. lia.
  - intros s acc v rest H. cbn [Json.parse_pairs] in H.
    destruct s as [|q r]; [discriminate|]. cbn [List.length].
    destruct (q =? QUOTE); [|discriminate].
    destruct (Json.scanstring r) as [[key r1]|] eqn:E; [|discriminate].
    apply (scanstring_length (List.length r)) in E; [|lia].
    ws_case r1 r2; [discriminate|]. destruct (_ =? 58); [|discriminate].
    pose proof (skip_ws_length r2) as Hw2.
    destruct (Json.scan_once f (Json.skip_ws r2)) as [w r3| |] eqn:Eo;
      try discriminate.
    apply IHo in Eo. ws_case r3 r4; [discriminate|].
    destruct (_ =? 125); [injection H as _ <-; lia|].
    destruct (_ =? 44); [|discriminate].
    apply IHp in H. pose proof (skip_ws_length r4). lia.
  - intros s acc v rest H. cbn [Json.parse_values] in H.
    destruct (Json.scan_once f s) as [w r1| |] eqn:Eo; try discriminate.
    apply IHo in Eo. ws_case r1 r2; [discriminate|].
    destruct (_ =? 93); [injection H as _ <-; lia|].
    destruct (_ =? 44); [|discriminate].
    apply IHv in H. pose proof (skip_ws_length r2). lia.
Qed.

(** With twice the length of the text as budget, no scanner runs out. *)
Lemma scan_fuel (fuel : nat) :
  (forall s, (2 * List.length s + 1 <= fuel)%nat ->
             Json.scan_once fuel s <> Json.OutOfFuel) /\
  (forall s acc, (2 * List.length s + 2 <= fuel)%nat ->
                 Json.parse_pairs fuel s acc <> Json.OutOfFuel) /\
  (forall s acc, (2 * List.length s + 2 <= fuel)%nat ->
                 Json.parse_values fuel s acc <> Json.OutOfFuel).
Proof.
  induction fuel as [|f (IHo & IHp & IHv)];
    [repeat split; intros; lia|].
  split; [|split].
  - intros s Hf. cbn [Json.scan_once].
    destruct s as [|c r]; [discriminate|]. cbn [List.length] in Hf.
    destruct (c =? QUOTE).
    { destruct (Json.scanstring r) as [[t rest']|]; discriminate. }
    destruct (c =? 123).
    { ws_case r r'; [discriminate|]. destruct (_ =? 125); [discriminate|].
      apply IHp. cbn [List.length]. lia. }
    destruct (c =? 91).
    { ws_case r r'; [discriminate|]. destruct (_ =? 93); [discriminate|].
      apply IHv. cbn [List.length]. lia. }
    assert (N : forall t, Json.scan_number t <> Json.OutOfFuel).
    { intros t. unfold Json.scan_number.
      destruct (Json.scan_sign t), (Json.scan_int _) as [[]|];
        [|discriminate].
      destruct (Json.scan_frac _) as [frac ?], (Json.scan_exp _) as [exp ?].
      destruct frac, exp; discriminate. }
    assert (K : forall kw w t, Json.scan_keyword kw w t <> Json.OutOfFuel).
    { intros kw w t. unfold Json.scan_keyword.
      destruct (Re.strip_prefix _ _); [discriminate | apply N]. }
    repeat (destruct (c =? _); [apply K|]). apply N.
  - intros s acc Hf. cbn [Json.parse_pairs].
    destruct s as [|q r]; [discriminate|]. cbn [List.length] in Hf.
    destruct (q =? QUOTE); [|discriminate].
    destruct (Json.scanstring r) as [[key r1]|] eqn:E; [|discriminate].
    apply (scanstring_length (List.length r)) in E; [|lia].
    ws_case r1 r2; [discriminate|]. destruct (_ =? 58); [|discriminate].
    pose proof (skip_ws_length r2) as Hw2.
    destruct (Json.scan_once f (Json.skip_ws r2)) as [w r3| |] eqn:Eo;
      try discriminate.
    + apply (proj1 (scan_length f)) in Eo. ws_case r3 r4; [discriminate|].
      destruct (_ =? 125); [discriminate|].
      destruct (_ =? 44); [|discriminate].
      apply IHp. pose proof (skip_ws_length r4). lia.
    + exfalso. revert Eo. apply IHo. lia.
  - intros s acc Hf. cbn [Json.parse_values].
    destruct (Json.scan_once f s) as [w r1| |] eqn:Eo; try discriminate.
    + apply (proj1 (scan_length f)) in Eo. ws_case r1 r2; [discriminate|].
      destruct (_ =? 93); [discriminate|].
      destruct (_ =? 44); [|discriminate].
      apply IHv. pose proof (skip_ws_length r2). lia.
    + exfalso. revert Eo. apply IHo. lia.
Qed.

(** [json.loads] never stops for lack of budget. *)
Lemma scan_once_fuel (s : str) :
  Json.scan_once (Json.fuel_for s) (Json.skip_ws s) <> Json.OutOfFuel.
Proof.
  apply (proj1 (scan_fuel _)). unfold Json.fuel_for.
  pose proof (skip_ws_length s). lia.
Qed.

(** ** What the decoding computes *)




(** After the pattern pass, Format 1 changes nothing unless [content] is
    a string. *)
Lemma mapping_value_after_format1 (d : pydict) (content : json) :
  dict_get (lit "content") d = Some content ->
  match content with
  | JStr _ =>
      match b64decode_utf8 content with
      | Ok decoded => Some decoded
      | Raise _ => None
      end
  | JList items => regex_value items
  | _ => None
  end = mapping_value d.
Proof. intros H. unfold mapping_value. rewrite H. now destruct content. Qed.









(** ** extract_file_content: choosing the response line *)

Lemma first_with_result_skips (pre rest : list json) :
  Forall (fun line => has_result line = Ok false) pre ->
  first_with_result (pre ++ rest) = first_with_result rest.
Proof.
  induction 1 as [|line pre Hline _ IH]; [reflexivity|].
  cbn [app first_with_result]. now rewrite Hline.
Qed.

Lemma extract_file_content_nonempty fr (lines : list json) :
  lines <> [] ->
  extract_file_content fr (Some lines) =
  (valid_file <- lift (first_with_result lines) ;;
   match valid_file with
   | None =>
       console_print (Say "Invalid file result response") ;; ret None
   | Some valid_file =>
       result <- lift (result_of valid_file) ;;
       file_content_of fr result
   end).
Proof. destruct lines; [congruence | reflexivity]. Qed.

(** X4: [extract_file_content] decodes the [result] of the first response
    line that has one; the lines before it that have none are passed
    over, the lines after it are not looked at. *)
Theorem first_line_with_result_decoded fr (pre post : list json)
    (line : pydict) (envelope : json) (c : console) :
  Forall (fun l => has_result l = Ok false) pre ->
  dict_get (lit "result") line = Some envelope ->
  extract_file_content fr (Some (pre ++ JDict line :: post)) c
  = extract_text fr envelope c.
Proof.
  intros Hpre Hr.
  rewrite extract_file_content_nonempty by (destruct pre; discriminate).
  rewrite first_with_result_skips by exact Hpre.
  cbn [first_with_result has_result obind]. unfold dict_has.
  rewrite Hr. unfold bind, lift. cbn [result_of]. now rewrite Hr.
Qed.

(** A notification without result, then the response, then another line
    with a result that is never reached. *)
Lemma first_line_with_result_decoded_witness :
  extract_file_content (fun x => x)
    (Some [JDict [(lit "method", JStr (lit "log"))];
           JDict [(lit "result", JDict [(lit "content", JStr (lit "SGk="))])];
           JDict [(lit "result", JNull)]]) []
  = extract_text (fun x => x) (JDict [(lit "content", JStr (lit "SGk="))]) [].
Proof.
  apply (first_line_with_result_decoded (fun x => x)
           [JDict [(lit "method", JStr (lit "log"))]]
           [JDict [(lit "result", JNull)]]
           [(lit "result", JDict [(lit "content", JStr (lit "SGk="))])]).
  - apply Forall_cons; [reflexivity | apply Forall_nil].
  - reflexivity.
Defined.

(** X5: when the command gave nothing ([None] or no line), or no line has
    a [result], [extract_file_content] returns absent and does not
    raise. *)
Theorem no_result_line_absent fr (c : console) :
  result_of_run (extract_file_content fr None c) = Ok None /\
  forall lines,
    Forall (fun l => has_result l = Ok false) lines ->
    result_of_run (extract_file_content fr (Some lines) c) = Ok None.
Proof.
  split; [reflexivity|]. intros lines H.
  destruct lines as [|l lines]; [reflexivity|].
  rewrite extract_file_content_nonempty by discriminate.
  rewrite <- (app_nil_r (l :: lines)), first_with_result_skips by exact H.
  reflexivity.
Qed.

Lemma no_result_line_absent_witness :
  result_of_run
    (extract_file_content (fun x => x)
       (Some [JDict [(lit "error", JStr (lit "boom"))]; JList []]) [])
  = Ok None.
Proof.
  apply (proj2 (no_result_line_absent (fun x => x) [])).
  repeat apply Forall_cons; try apply Forall_nil; reflexivity.
Defined.

(** X6: [extract_file_content] raises [TypeError] when, before any line
    with a [result], a response line is [null], a boolean or a number
    (the membership test fails on it), and also when the first line found
    is a string that contains the word result (it cannot be indexed by a
    key). *)
Theorem odd_response_line_raises fr (pre post : list json) (c : console) :
  Forall (fun l => has_result l = Ok false) pre ->
  (forall line, not_iterable line ->
     result_of_run (extract_file_content fr (Some (pre ++ line :: post)) c)
     = Raise TypeError) /\
  (forall text, str_contains (lit "result") text = true ->
     result_of_run
       (extract_file_content fr (Some (pre ++ JStr text :: post)) c)
     = Raise TypeError).
Proof.
  intros Hpre. split.
  - intros line Hline.
    rewrite extract_file_content_nonempty by (destruct pre; discriminate).
    rewrite first_with_result_skips by exact Hpre.
    destruct line; try contradiction; reflexivity.
  - intros text Ht.
    rewrite extract_file_content_nonempty by (destruct pre; discriminate).
    rewrite first_with_result_skips by exact Hpre.
    cbn [first_with_result has_result obind]. rewrite Ht. reflexivity.
Qed.

Lemma odd_response_line_raises_witness :
  result_of_run
    (extract_file_content (fun x => x)
       (Some [JDict [(lit "id", JInt 1)]; JInt 5;
              JDict [(lit "result", JNull)]]) [])
  = Raise TypeError.
Proof.
  assert (H : Forall (fun l => has_result l = Ok false)
                [JDict [(lit "id", JInt 1)]])
    by (apply Forall_cons; [reflexivity | apply Forall_nil]).
  exact (proj1 (odd_response_line_raises (fun x => x)
                  [JDict [(lit "id", JInt 1)]]
                  [JDict [(lit "result", JNull)]] [] H)
           (JInt 5) I).
Defined.

(** ** extract_repos_from_response: where the records come from *)

Lemma list_field_get (k : string) (d : pydict) (l : list json) :
  list_field k d = Some l -> dict_get (lit k) d = Some (JList l).
Proof.
  unfold list_field. destruct (dict_get _ _) as [[]|]; try discriminate.
  now intros [= ->].
Qed.

Lemma repos_of_text_provenance (text : json) (l : list json) :
  repos_of_text text = Ok (Some l) ->
  exists t, text = JStr t /\
    (Json.loads_str t = Ok (JList l) \/
     exists dd k, Json.loads_str t = Ok (JDict dd) /\ In k record_fields /\
                  dict_get (lit k) dd = Some (JList l)).
Proof.
  unfold repos_of_text. destruct text; try discriminate.
  cbn [Json.loads]. intros H. exists s. split; [reflexivity|].
  destruct (Json.loads_str s) as [data|]; [|discriminate].
  cbn [obind] in H. destruct data; try discriminate.
  - destruct (first_three_look_like_repos l0); [|discriminate].
    injection H as ->. now left.
  - right. exists d. unfold record_fields.
    destruct (list_field "items" d) as [l1|] eqn:E1.
    { injection H as ->. exists "items"%string.
      repeat split; [cbn; auto | now apply list_field_get]. }
    destruct (list_field "repositories" d) as [l2|] eqn:E2.
    { injection H as ->. exists "repositories"%string.
      repeat split; [cbn; auto | now apply list_field_get]. }
    destruct (list_field "data" d) as [l3|] eqn:E3; [|discriminate].
    injection H as ->. exists "data"%string.
    repeat split; [cbn; auto | now apply list_field_get].
Qed.

Lemma content_loop_provenance (items : list json) (l : list json) :
  content_loop items = Ok (Some l) ->
  exists item t,
    In (JDict item) items /\ dict_get (lit "text") item = Some (JStr t) /\
    (Json.loads_str t = Ok (JList l) \/
     exists dd k, Json.loads_str t = Ok (JDict dd) /\ In k record_fields /\
                  dict_get (lit k) dd = Some (JList l)).
Proof.
  induction items as [|item items IH]; [discriminate|].
  assert (Later : content_loop items = Ok (Some l) ->
                  exists item' t,
                    In (JDict item') (item :: items) /\
                    dict_get (lit "text") item' = Some (JStr t) /\
                    (Json.loads_str t = Ok (JList l) \/
                     exists dd k, Json.loads_str t = Ok (JDict dd) /\
                       In k record_fields /\
                       dict_get (lit k) dd = Some (JList l))).
  { intros H. destruct (IH H) as (item' & t & Hin & Ht & Hl).
    exists item', t. split; [now right | auto]. }
  cbn [content_loop]. destruct item; try exact Later.
  destruct (dict_get (lit "text") d) as [text|] eqn:E; [|exact Later].
  destruct (repos_of_text text) as [[l'|]|e] eqn:R; cbn [otry obind];
    try exact Later.
  intros [= ->]. destruct (repos_of_text_provenance _ _ R) as (t & -> & Hl).
  exists d, t. split; [now left | auto].
Qed.

(** X7: [extract_repos_from_response] never makes records up: a result
    that is not empty is the envelope itself, or the sequence under
    [items], [repositories] or [data] of the envelope, or what the text
    of one item of [content] parses to (a sequence, or the sequence under
    one of these three fields of a mapping). *)
Theorem records_come_from_envelope (envelope : json) (l : list json) :
  extract_records envelope = Ok l ->
  l = [] \/
  envelope = JList l \/
  (exists d k, envelope = JDict d /\ In k record_fields /\
               dict_get (lit k) d = Some (JList l)) \/
  (exists d items item t,
     envelope = JDict d /\
     dict_get (lit "content") d = Some (JList items) /\
     In (JDict item) items /\
     dict_get (lit "text") item = Some (JStr t) /\
     (Json.loads_str t = Ok (JList l) \/
      exists dd k, Json.loads_str t = Ok (JDict dd) /\ In k record_fields /\
                   dict_get (lit k) dd = Some (JList l))).
Proof.
  unfold extract_records, extract_repos_from_response, record_fields.
  destruct envelope; try (intros [= <-]; now left).
  - destruct (first_three_look_like_repos l0); intros [= <-]; auto.
  - destruct (list_field "items" d) as [l1|] eqn:E1.
    { intros [= ->]. right; right; left. exists d, "items"%string.
      repeat split; [cbn; auto | now apply list_field_get]. }
    destruct (list_field "repositories" d) as [l2|] eqn:E2.
    { intros [= ->]. right; right; left. exists d, "repositories"%string.
      repeat split; [cbn; auto | now apply list_field_get]. }
    destruct (list_field "content" d) as [items|] eqn:E3.
    + destruct (content_loop items) as [[l'|]|e] eqn:L; cbn [obind];
        try discriminate; intros [= <-]; [|now left].
      destruct (content_loop_provenance _ _ L) as (item & t & Hin & Ht & Hl).
      right; right; right. exists d, items, item, t.
      repeat split; auto. now apply list_field_get.
    + destruct (list_field "data" d) as [l3|] eqn:E4;
        intros [= <-]; [|now left].
      right; right; left. exists d, "data"%string.
      repeat split; [cbn; auto | now apply list_field_get].
Qed.

Lemma records_come_from_envelope_witness :
  let envelope :=
    JDict [(lit "content",
            JList [JDict [(lit "text", JStr repositories_text)]])] in
  let l := [JInt 1; JInt 2] in
  l = [] \/
  envelope = JList l \/
  (exists d k, envelope = JDict d /\ In k record_fields /\
               dict_get (lit k) d = Some (JList l)) \/
  (exists d items item t,
     envelope = JDict d /\
     dict_get (lit "content") d = Some (JList items) /\
     In (JDict item) items /\
     dict_get (lit "text") item = Some (JStr t) /\
     (Json.loads_str t = Ok (JList l) \/
      exists dd k, Json.loads_str t = Ok (JDict dd) /\ In k record_fields /\
                   dict_get (lit k) dd = Some (JList l))).
Proof.
  intros envelope l. apply records_come_from_envelope.
  vm_compute. reflexivity.
Defined.

(** ** extract_file_content on a sequence (Format 2) *)












(** ** The pattern of line 628 *)

Lemma strip_prefix_app (p s r : str) :
  Re.strip_prefix p s = Some r -> s = p ++ r.
Proof.
  revert s. induction p as [|x p IH]; intros s H; cbn in H.
  - now injection H as ->.
  - destruct s as [|y s]; [discriminate|].
    destruct (Z.eqb_spec x y); [|discriminate]. subst y.
    cbn. f_equal. now apply IH.
Qed.

Lemma strip_prefix_same (p r : str) : Re.strip_prefix p (p ++ r) = Some r.
Proof.
  induction p as [|x p IH]; cbn; [reflexivity|]. now rewrite Z.eqb_refl.
Qed.

Lemma takewhile_dropwhile (p : Z -> bool) (s : str) :
  s = takewhile p s ++ dropwhile p s /\ forallb p (takewhile p s) = true.
Proof.
  induction s as [|c r [IH1 IH2]]; cbn; [auto|].
  destruct (p c) eqn:E; cbn; [|auto]. rewrite E, IH2. split; [|reflexivity].
  now f_equal.
Qed.

Lemma dropwhile_head (p : Z -> bool) (s : str) (x : Z) (r : str) :
  dropwhile p s = x :: r -> p x = false.
Proof.
  induction s as [|c s IH]; cbn; [discriminate|].
  destruct (p c) eqn:E; [exact IH|]. now intros [= <- _].
Qed.

Lemma dropwhile_app (p : Z -> bool) (ws : str) (x : Z) (r : str) :
  forallb p ws = true -> p x = false ->
  dropwhile p (ws ++ x :: r) = x :: r.
Proof.
  intros H Hx. induction ws as [|c ws IH]; cbn.
  - now rewrite Hx.
  - cbn in H. apply andb_true_iff in H. destruct H as [-> H]. auto.
Qed.

Lemma takewhile_app (p : Z -> bool) (g : str) (x : Z) (r : str) :
  forallb p g = true -> p x = false ->
  takewhile p (g ++ x :: r) = g.
Proof.
  intros H Hx. induction g as [|c g IH]; cbn.
  - now rewrite Hx.
  - cbn in H. apply andb_true_iff in H. destruct H as [-> H].
    f_equal. auto.
Qed.

Lemma match_here_sound (s group1 : str) :
  Re.match_here s = Some group1 ->
  exists ws1 ws2 after,
    s = pattern_instance ws1 ws2 group1 ++ after /\
    forallb isspace ws1 = true /\ forallb isspace ws2 = true /\
    group1 <> [] /\ forallb Re.not_quote group1 = true.
Proof.
  unfold Re.match_here.
  destruct (Re.strip_prefix _ s) as [r|] eqn:P; [|discriminate].
  apply strip_prefix_app in P.
  destruct (takewhile_dropwhile isspace r) as [S1 W1].
  destruct (dropwhile isspace r) as [|c r1]; [discriminate|].
  destruct (Z.eqb_spec c 58); [subst c|discriminate].
  destruct (takewhile_dropwhile isspace r1) as [S2 W2].
  destruct (dropwhile isspace r1) as [|q r2]; [discriminate|].
  destruct (Z.eqb_spec q QUOTE); [subst q|discriminate].
  destruct (takewhile_dropwhile Re.not_quote r2) as [S3 W3].
  pose proof (dropwhile_head Re.not_quote r2) as Hq.
  destruct (takewhile Re.not_quote r2) as [|g0 g]; [discriminate|].
  destruct (dropwhile Re.not_quote r2) as [|x after]; [discriminate|].
  intros [= <-]. specialize (Hq x after eq_refl).
  unfold Re.not_quote in Hq. apply negb_false_iff, Z.eqb_eq in Hq. subst x.
  exists (takewhile isspace r), (takewhile isspace r1), after.
  repeat split; auto; [|discriminate].
  unfold pattern_instance, quoted. rewrite P, S1 at 1. rewrite S2 at 1.
  rewrite S3 at 1. cbn [app].
  repeat (rewrite <- app_assoc; cbn [app]). reflexivity.
Qed.

(** X10: whatever [re.search] captures for line 631 sits in the text
    inside an occurrence of the pattern: it is not empty, it holds no
    double quote, and the text reads: something, the quoted word content,
    white space, a colon, white space, a quote, the group, a quote,
    something. *)
Theorem captured_group_sound (text group1 : str) :
  Re.search_str text = Some group1 ->
  exists before ws1 ws2 after,
    text = before ++ pattern_instance ws1 ws2 group1 ++ after /\
    forallb isspace ws1 = true /\ forallb isspace ws2 = true /\
    group1 <> [] /\ forallb Re.not_quote group1 = true.
Proof.
  induction text as [|c text IH]; cbn [Re.search_str].
  - destruct (Re.match_here []) eqn:E; [|discriminate]. intros [= ->].
    destruct (match_here_sound _ _ E) as (ws1 & ws2 & after & H).
    now exists [], ws1, ws2, after.
  - destruct (Re.match_here (c :: text)) eqn:E.
    + intros [= ->].
      destruct (match_here_sound _ _ E) as (ws1 & ws2 & after & H).
      now exists [], ws1, ws2, after.
    + intros H. destruct (IH H) as (before & ws1 & ws2 & after & -> & R).
      now exists (c :: before), ws1, ws2, after.
Qed.

Lemma captured_group_sound_witness :
  exists before ws1 ws2 after,
    hello_text = before ++ pattern_instance ws1 ws2 (lit "SGVsbG8=") ++ after
    /\ forallb isspace ws1 = true /\ forallb isspace ws2 = true /\
    lit "SGVsbG8=" <> [] /\ forallb Re.not_quote (lit "SGVsbG8=") = true.
Proof. apply captured_group_sound. reflexivity. Defined.

Lemma match_here_instance (ws1 ws2 group1 after : str) :
  forallb isspace ws1 = true -> forallb isspace ws2 = true ->
  group1 <> [] -> forallb Re.not_quote group1 = true ->
  Re.match_here (pattern_instance ws1 ws2 group1 ++ after) = Some group1.
Proof.
  intros W1 W2 Hg Hq. unfold Re.match_here, pattern_instance.
  change (QUOTE :: lit "content" ++ [QUOTE]) with (quoted "content").
  rewrite <- !app_assoc, strip_prefix_same. cbn [app].
  rewrite dropwhile_app by (auto; reflexivity). rewrite Z.eqb_refl.
  rewrite dropwhile_app by (auto; reflexivity). rewrite Z.eqb_refl.
  rewrite takewhile_app, dropwhile_app by (auto; reflexivity).
  destruct group1; [congruence | reflexivity].
Qed.

(** X11: the search finds an occurrence of the pattern wherever it is,
    and when no double quote comes before the occurrence the group
    captured is the group of that occurrence. *)
Theorem pattern_occurrence_found (before ws1 ws2 group1 after : str) :
  forallb isspace ws1 = true -> forallb isspace ws2 = true ->
  group1 <> [] -> forallb Re.not_quote group1 = true ->
  (exists g,
     Re.search_str (before ++ pattern_instance ws1 ws2 group1 ++ after)
     = Some g) /\
  (forallb Re.not_quote before = true ->
   Re.search_str (before ++ pattern_instance ws1 ws2 group1 ++ after)
   = Some group1).
Proof.
  intros W1 W2 Hg Hq.
  assert (Here : forall s, Re.match_here s = Some group1 ->
                           Re.search_str s = Some group1).
  { intros s H. destruct s; cbn [Re.search_str]; now rewrite H. }
  pose proof (match_here_instance ws1 ws2 group1 after W1 W2 Hg Hq) as M.
  split.
  - induction before as [|c before IH]; cbn [app].
    + exists group1. now apply Here.
    + cbn [Re.search_str]. destruct (Re.match_here (c :: _)); eauto.
  - intros Hb. induction before as [|c before IH]; cbn [app].
    + now apply Here.
    + cbn [forallb] in Hb. apply andb_true_iff in Hb. destruct Hb as [Hc Hb].
      cbn [Re.search_str].
      replace (Re.match_here (c :: _)) with (@None str); [auto|].
      unfold Re.match_here. cbn [app Re.strip_prefix].
      unfold Re.not_quote in Hc. apply negb_true_iff in Hc.
      rewrite Z.eqb_sym in Hc. now rewrite Hc.
Qed.

(** The colon may be spaced out, and text without quotes may come
    first. *)
Lemma pattern_occurrence_found_witness :
  Re.search_str
    (lit "data: " ++ pattern_instance (lit " ") (lit "  ") (lit "QUJD")
     ++ lit ", more")
  = Some (lit "QUJD").
Proof.
  apply (proj2 (pattern_occurrence_found (lit "data: ") (lit " ") (lit "  ")
                  (lit "QUJD") (lit ", more")
                  eq_refl eq_refl ltac:(discriminate) eq_refl)).
  reflexivity.
Defined.

(** ** run_mcp_command: the responses *)












(** ** get_tools_list and the tool lookups *)

Lemma first_with_tools_skips (pre rest : list json) :
  Forall (fun line => has_tools line = Ok false) pre ->
  first_with_tools (pre ++ rest) = first_with_tools rest.
Proof.
  induction 1 as [|line pre Hline _ IH]; [reflexivity|].
  cbn [app first_with_tools]. now rewrite Hline.
Qed.

Lemma get_tools_list_from_nonempty (lines : list json) :
  lines <> [] ->
  get_tools_list_from (Some lines) =
  (valid_result <- lift (first_with_tools lines) ;;
   match valid_result with
   | None =>
       console_print (Say "Invalid tools list response.") ;; ret JNull
   | Some valid_result =>
       result <- lift (py_getitem valid_result "result") ;;
       lift (py_getitem result "tools")
   end).
Proof. destruct lines; [congruence | reflexivity]. Qed.

(** X15: [get_tools_list] returns the [tools] of the first response line
    that is a mapping whose [result] is a mapping with [tools]; the lines
    before it on which the test of line 214 is false are passed over.
    When the test is false on every line, or there is no line, the result
    is [None]. *)
Theorem tools_of_first_fitting_line (pre post : list json)
    (line result : pydict) (tools : json) (c : console) :
  Forall (fun l => has_tools l = Ok false) pre ->
  (dict_get (lit "result") line = Some (JDict result) ->
   dict_get (lit "tools") result = Some tools ->
   result_of_run
     (get_tools_list_from (Some (pre ++ JDict line :: post)) c)
   = Ok tools) /\
  result_of_run (get_tools_list_from (Some pre) c) = Ok JNull.
Proof.
  intros Hpre. split.
  - intros Hr Ht.
    rewrite get_tools_list_from_nonempty by (destruct pre; discriminate).
    rewrite first_with_tools_skips by exact Hpre.
    cbn [first_with_tools has_tools py_in py_getitem obind].
    unfold dict_has. rewrite Hr. cbn [obind py_in]. unfold dict_has.
    rewrite Ht. unfold bind, lift. cbn [py_getitem].
    rewrite Hr. cbn [py_getitem]. now rewrite Ht.
  - destruct pre as [|l pre]; [reflexivity|].
    rewrite get_tools_list_from_nonempty by discriminate.
    rewrite <- (app_nil_r (l :: pre)), first_with_tools_skips by exact Hpre.
    reflexivity.
Qed.

(** An error response, then the response with the tools. *)
Lemma tools_of_first_fitting_line_witness :
  result_of_run
    (get_tools_list_from
       (Some [JDict [(lit "error", JDict [(lit "code", JInt 1)])];
              JDict [(lit "result",
                      JDict [(lit "tools",
                              JList [JDict [(lit "name",
                                             JStr (lit "get_me"))]])])]])
       [])
  = Ok (JList [JDict [(lit "name", JStr (lit "get_me"))]]).
Proof.
  assert (H : Forall (fun l => has_tools l = Ok false)
                [JDict [(lit "error", JDict [(lit "code", JInt 1)])]])
    by (apply Forall_cons; [reflexivity | apply Forall_nil]).
  exact (proj1 (tools_of_first_fitting_line
                  [JDict [(lit "error", JDict [(lit "code", JInt 1)])]] []
                  [(lit "result",
                    JDict [(lit "tools",
                            JList [JDict [(lit "name",
                                           JStr (lit "get_me"))]])])]
                  [(lit "tools",
                    JList [JDict [(lit "name", JStr (lit "get_me"))]])]
                  (JList [JDict [(lit "name", JStr (lit "get_me"))]]) [] H)
           eq_refl eq_refl).
Defined.

(** X16: [get_tools_list] raises [TypeError] on a response whose
    [result] is a string that contains the word tools, or a sequence
    with the string tools among its elements: the membership test of line
    214 holds and the lookup of line 220 then indexes a string or a
    sequence by a key.  It raises [TypeError] as well when the [result]
    is [null], a boolean or a number. *)
Theorem tools_lookup_raises (pre post : list json) (line : pydict)
    (result : json) (c : console) :
  Forall (fun l => has_tools l = Ok false) pre ->
  dict_get (lit "result") line = Some result ->
  (exists t, result = JStr t /\ str_contains (lit "tools") t = true) \/
  (exists l, result = JList l /\ In (JStr (lit "tools")) l) \/
  not_iterable result ->
  result_of_run (get_tools_list_from (Some (pre ++ JDict line :: post)) c)
  = Raise TypeError.
Proof.
  intros Hpre Hr H.
  rewrite get_tools_list_from_nonempty by (destruct pre; discriminate).
  rewrite first_with_tools_skips by exact Hpre.
  cbn [first_with_tools has_tools py_in py_getitem obind].
  unfold dict_has. rewrite Hr. cbn [obind].
  destruct H as [(t & -> & Ht)|[(l & -> & Hl)|H]].
  - cbn [py_in]. rewrite Ht. unfold bind, lift. cbn [obind py_getitem].
    now rewrite Hr.
  - cbn [py_in].
    replace (existsb _ l) with true.
    + unfold bind, lift. cbn [obind py_getitem]. now rewrite Hr.
    + symmetry. apply existsb_exists. exists (JStr (lit "tools")).
      split; [exact Hl|]. clear. now vm_compute.
  - destruct result; try contradiction; reflexivity.
Qed.

Lemma tools_lookup_raises_witness :
  result_of_run
    (get_tools_list_from
       (Some [JDict [(lit "result", JStr (lit "no tools available"))]]) [])
  = Raise TypeError.
Proof.
  apply (tools_lookup_raises [] []
           [(lit "result", JStr (lit "no tools available"))]
           (JStr (lit "no tools available")) [] (Forall_nil _) eq_refl).
  left. exists (lit "no tools available"). split; reflexivity.
Defined.

Lemma str_eqb_eq (a b : str) : str_eqb a b = true <-> a = b.
Proof.
  revert b. induction a as [|x a IH]; destruct b as [|y b]; cbn;
    try (split; [discriminate | congruence]); [tauto|].
  rewrite andb_true_iff, Z.eqb_eq, IH. split; [intros []|intros [=]];
    subst; auto.
Qed.

Lemma find_tool_skips (name : string) (pre rest : list json) :
  Forall (fun t => exists d n, t = JDict d /\
                               dict_get (lit "name") d = Some n /\
                               n <> JStr (lit name)) pre ->
  find_tool name (pre ++ rest) = find_tool name rest.
Proof.
  induction 1 as [|t pre (d & n & -> & Hn & Hne) _ IH]; [reflexivity|].
  cbn [app find_tool py_getitem]. rewrite Hn. cbn [obind].
  destruct n; try exact IH.
  destruct (str_eqb s (lit name)) eqn:E; [|exact IH].
  apply str_eqb_eq in E. congruence.
Qed.

(** X17: the tool lookup of the demos returns the first tool whose [name]
    is the one asked for, after tools with other names; it returns [None]
    when every tool has another name, and raises [KeyError] when a tool
    without [name] comes before any match. *)
Theorem tool_lookup (name : string) (pre post : list json) :
  Forall (fun t => exists d n, t = JDict d /\
                               dict_get (lit "name") d = Some n /\
                               n <> JStr (lit name)) pre ->
  (forall tool, dict_get (lit "name") tool = Some (JStr (lit name)) ->
                find_tool name (pre ++ JDict tool :: post)
                = Ok (JDict tool)) /\
  find_tool name pre = Ok JNull /\
  (forall tool, dict_get (lit "name") tool = None ->
                find_tool name (pre ++ JDict tool :: post)
                = Raise KeyError).
Proof.
  intros Hpre. repeat split.
  - intros tool Ht. rewrite find_tool_skips by exact Hpre.
    cbn [find_tool py_getitem]. rewrite Ht. cbn [obind].
    now rewrite (proj2 (str_eqb_eq _ _) eq_refl).
  - rewrite <- (app_nil_r pre), find_tool_skips by exact Hpre. reflexivity.
  - intros tool Ht. rewrite find_tool_skips by exact Hpre.
    cbn [find_tool py_getitem]. now rewrite Ht.
Qed.

Lemma tool_lookup_witness :
  find_tool "get_file_contents"
    [JDict [(lit "name", JStr (lit "search_repositories"))];
     JDict [(lit "name", JStr (lit "get_file_contents"));
            (lit "description", JStr (lit "Get a file"))]]
  = Ok (JDict [(lit "name", JStr (lit "get_file_contents"));
               (lit "description", JStr (lit "Get a file"))]).
Proof.
  assert (H : Forall (fun t => exists d n, t = JDict d /\
                        dict_get (lit "name") d = Some n /\
                        n <> JStr (lit "get_file_contents"))
                [JDict [(lit "name", JStr (lit "search_repositories"))]]).
  { apply Forall_cons; [|apply Forall_nil].
    exists [(lit "name", JStr (lit "search_repositories"))],
           (JStr (lit "search_repositories")).
    repeat split. discriminate. }
  exact (proj1 (tool_lookup "get_file_contents"
                  [JDict [(lit "name", JStr (lit "search_repositories"))]]
                  [] H)
           [(lit "name", JStr (lit "get_file_contents"));
            (lit "description", JStr (lit "Get a file"))] eq_refl).
Defined.

(** ** display_file_content *)

Lemma startswith_cons (x c : Z) (p r : str) :
  startswith (x :: p) (c :: r) = (x =? c) && startswith p r.
Proof. reflexivity. Qed.

Ltac eval_suffix suffix :=
  let x := eval vm_compute in (rev (lit suffix)) in
  change (rev (lit suffix)) with x.

(** X18: the language [display_file_content] highlights with depends on
    the end of the path alone, and each of the five endings has its own
    language: the order of the tests of lines 706-714 never matters,
    because no path has two of the endings. *)
Theorem language_by_suffix (file_path : str) :
  (language_of file_path = "json"%string <->
   endswith ".json" file_path = true) /\
  (language_of file_path = "javascript"%string <->
   endswith ".js" file_path = true) /\
  (language_of file_path = "python"%string <->
   endswith ".py" file_path = true) /\
  (language_of file_path = "markdown"%string <->
   endswith ".md" file_path = true) /\
  (language_of file_path = "rst"%string <->
   endswith ".rst" file_path = true) /\
  (language_of file_path = "text"%string <->
   endswith ".json" file_path = false /\ endswith ".js" file_path = false /\
   endswith ".py" file_path = false /\ endswith ".md" file_path = false /\
   endswith ".rst" file_path = false).
Proof.
  unfold language_of, endswith.
  eval_suffix ".json"%string. eval_suffix ".js"%string.
  eval_suffix ".py"%string. eval_suffix ".md"%string.
  eval_suffix ".rst"%string.
  destruct (rev file_path) as [|c r].
  - cbn. repeat split; intros; try discriminate; auto.
  - rewrite !startswith_cons.
    destruct (Z.eqb_spec 110 c); [subst c|];
      [|destruct (Z.eqb_spec 115 c); [subst c|];
        [|destruct (Z.eqb_spec 121 c); [subst c|];
          [|destruct (Z.eqb_spec 100 c); [subst c|];
            [|destruct (Z.eqb_spec 116 c); [subst c|]]]]];
      repeat match goal with
             | |- context [Z.eqb ?a ?b] =>
                 let v := eval vm_compute in (Z.eqb a b) in
                 change (Z.eqb a b) with v
             end;
      cbn [andb];
      repeat match goal with
             | |- context [startswith ?p r] =>
                 generalize (startswith p r); intros []
             end;
      repeat split; intros; try discriminate; try reflexivity;
      repeat match goal with H : _ /\ _ |- _ => destruct H end;
      try discriminate.
Qed.







(** ** display_tools *)







Lemma lowered_name_named lower (tool : json) :
  named_tool tool -> lowered_name lower tool = Ok (lower (name_key tool)).
Proof.
  intros (d & s & -> & H). unfold lowered_name, name_key.
  cbn [py_getitem]. now rewrite H.
Qed.






Lemma categorize_raises lower (pre post : list json) (bad : json)
    (e : exn) :
  Forall named_tool pre ->
  lowered_name lower bad = Raise e ->
  categorize lower (pre ++ bad :: post) = Raise e.
Proof.
  intros Hpre Hbad. induction Hpre as [|tool pre Ht _ IH]; cbn [app categorize].
  - now rewrite Hbad.
  - rewrite (lowered_name_named lower tool Ht). cbn [obind]. now rewrite IH.
Qed.

(** X23: [display_tools] stops at the first tool it cannot name: with
    [KeyError] for a mapping without [name], with [AttributeError] for a
    [name] that is not a string, with [TypeError] for a tool that is not
    a mapping; the tools after it are not reached and no table is
    shown. *)
Theorem unnamed_tool_raises lower (pre post : list json) (max_tools : Z) :
  Forall named_tool pre ->
  (forall d, dict_get (lit "name") d = None ->
     tool_table lower (pre ++ JDict d :: post) max_tools = Raise KeyError) /\
  (forall d name, dict_get (lit "name") d = Some name ->
     (forall s, name <> JStr s) ->
     tool_table lower (pre ++ JDict d :: post) max_tools
     = Raise AttributeError) /\
  (forall bad, (forall d, bad <> JDict d) ->
     tool_table lower (pre ++ bad :: post) max_tools = Raise TypeError).
Proof.
  intros Hpre. unfold tool_table. repeat split.
  - intros d Hd. rewrite (categorize_raises lower pre post _ KeyError);
      auto. unfold lowered_name. cbn [py_getitem]. now rewrite Hd.
  - intros d name Hd Hn.
    rewrite (categorize_raises lower pre post _ AttributeError); auto.
    unfold lowered_name. cbn [py_getitem]. rewrite Hd. cbn [obind].
    destruct name; try reflexivity. now destruct (Hn s).
  - intros bad Hb.
    rewrite (categorize_raises lower pre post _ TypeError); auto.
    destruct bad; try reflexivity. now destruct (Hb d).
Qed.

Lemma unnamed_tool_raises_witness :
  tool_table (fun s => s)
    [JDict [(lit "name", JStr (lit "get_me"))];
     JDict [(lit "description", JStr (lit "nameless"))]] 30
  = Raise KeyError.
Proof.
  assert (H : Forall named_tool [JDict [(lit "name", JStr (lit "get_me"))]]).
  { apply Forall_cons; [|apply Forall_nil].
    eexists; eexists; split; reflexivity. }
  exact (proj1 (unnamed_tool_raises (fun s => s)
                  [JDict [(lit "name", JStr (lit "get_me"))]] [] 30 H)
           [(lit "description", JStr (lit "nameless"))] eq_refl).
Defined.
